(** * ExpenseTracker: the route handlers of [routes.js] over the schemas of
    [models.js], as state transformers on the three collections.

    Modelling conventions.
    - A collection is the list of its documents in insertion order; a document
      is found, replaced and inserted by its [_id].
    - A JavaScript number is an IEEE 754 binary64 [float]; [+], [-] and unary
      [-] on numbers are the rounded operations of that format.
    - What a request sends for a [Number] or [Date] path is a JSON scalar or
      nothing ([value]): it may be a number, a string, a boolean or [null];
      arrays and objects are not modelled.  What it sends for a [String]
      path is a [string] or nothing, and a reference to an account or a debt
      arrives as text.
    - A stored [Number] path that is required, or that the routes always
      write, holds a number: the routes never store [null] there.
    - What the runtime and the object mapper do with text is kept abstract
      ([Runtime]): the conversion of a string to a number and of a number to
      a string, the cast of a text to an ObjectId and the cast of a value to
      a Date.  The theorems hold whatever these four are.
    - [!x] is JavaScript falsiness: nothing, [null], [false], [0], [NaN] and
      the empty string are falsy.
    - The [_id] of a new document and the clock reading [Date.now] are
      supplied by the environment, so they are arguments of the handlers.
    - A handler that opens a session works on a copy of the store; the copy
      replaces the store on [commitTransaction] and is dropped on
      [abortTransaction].  A document loaded through the session is saved
      through it.
    - [save] of a new document casts and validates it against its schema;
      [save] of a loaded document validates it again. *)

From Stdlib Require Import ZArith NArith List Ascii String Bool Lia Floats.
Import ListNotations.
Local Open Scope string_scope.
Local Open Scope list_scope.
Local Open Scope Z_scope.

(** ** Documents *)

Definition ObjectId := N.
Definition Date := Z.

Module Transaction.
Record t := mk {
  _id : ObjectId;
  description : string;
  amount : float;
  category : option string;
  date : option Date;
  type : string;
  sourceAccount : option ObjectId;
  destinationAccount : option ObjectId;
  debt : option ObjectId
}.
End Transaction.

Module BankAccount.
Record t := mk {
  _id : ObjectId;
  accountNumber : string;
  balance : float
}.
End BankAccount.

Module Recurrence.
Record t := mk {
  frequency : option string;
  interval : option float;
  nextDueDate : option Date
}.
End Recurrence.

Module Debt.
Record t := mk {
  _id : ObjectId;
  description : string;
  totalAmount : float;
  settledAmount : float;
  pendingAmount : float;
  status : string;
  type : string;
  date : Date;
  debtor : option string;
  debtorAccount : option ObjectId;
  creditorAccount : option ObjectId;
  creditor : option string;
  isRecurring : bool;
  recurrence : Recurrence.t
}.
End Debt.

(** A JSON scalar, or nothing ([undefined]). *)
Inductive value :=
| VUndefined
| VNull
| VBool (b : bool)
| VNumber (n : float)
| VString (s : string).

(** The arguments of [new Transaction({...})], [new BankAccount({...})] and
    [new Debt({...})]: what the handler passes, before casting and
    validation. *)
Record TransactionInit := {
  ti_description : option string;
  ti_amount : value;
  ti_category : option string;
  ti_date : value;
  ti_type : option string;
  ti_sourceAccount : option string;
  ti_destinationAccount : option string;
  ti_debt : option string
}.

Record RecurrenceInit := {
  ri_frequency : option string;
  ri_interval : value;
  ri_nextDueDate : value
}.

Record DebtInit := {
  di_description : option string;
  di_totalAmount : value;
  di_settledAmount : value;
  di_pendingAmount : value;
  di_status : option string;
  di_type : option string;
  di_debtor : option string;
  di_debtorAccount : option string;
  di_creditorAccount : option string;
  di_creditor : option string;
  di_isRecurring : option bool;
  di_recurrence : option RecurrenceInit
}.

(** ** The store *)

Record Store := {
  transactions : list Transaction.t;
  bankAccounts : list BankAccount.t;
  debts : list Debt.t
}.

Section Collection.
Context {D : Type} (ident : D -> ObjectId).

Definition findById (k : ObjectId) (c : list D) : option D :=
  find (fun d => N.eqb (ident d) k) c.

(** [updateOne({_id: k}, ...)]: the first document with that [_id] is
    replaced, a collection without one is left as it is. *)
Fixpoint replaceOne (k : ObjectId) (d' : D) (c : list D) : list D :=
  match c with
  | [] => []
  | d :: r => if N.eqb (ident d) k then d' :: r else d :: replaceOne k d' r
  end.

(** [insertOne]: refused (duplicate key) when the [_id] is taken. *)
Definition insertOne (d : D) (c : list D) : option (list D) :=
  match findById (ident d) c with
  | Some _ => None
  | None => Some (c ++ [d])
  end.

End Collection.

(** ** The runtime and the object mapper on text *)

(** The outcome of casting a value to the type of a schema path: nothing to
    store ([null]), a value of the type, or a [CastError]. *)
Inductive CastResult (A : Type) :=
| NoValue
| Cast (a : A)
| CastError.
Arguments NoValue {A}.
Arguments Cast {A} a.
Arguments CastError {A}.

Record Runtime := {
  (** the cast of a text to an ObjectId; [None] is a [CastError] *)
  castObjectId : string -> option ObjectId;
  (** [Number(s)] on a string *)
  stringToNumber : string -> float;
  (** [String(n)] on a number *)
  numberToString : float -> string;
  (** the cast of a value that is not [undefined] to a [Date] path *)
  castDate : value -> CastResult Date
}.

(** ** JavaScript truthiness and arithmetic *)

Definition truthyS (x : option string) : bool :=
  match x with
  | Some s => negb (s =? EmptyString)%string
  | None => false
  end.

(** Truthiness of what was sent for a [Number] path. *)
Definition truthyN (x : value) : bool :=
  match x with
  | VUndefined | VNull => false
  | VBool b => b
  | VNumber n => negb (PrimFloat.eqb n 0%float || is_nan n)
  | VString s => negb (s =? EmptyString)%string
  end.

(** [Number(x)] *)
Definition toNumber (rt : Runtime) (x : value) : float :=
  match x with
  | VUndefined => nan
  | VNull => 0%float
  | VBool true => 1%float
  | VBool false => 0%float
  | VNumber n => n
  | VString s => stringToNumber rt s
  end.

(** [isNaN(x)] *)
Definition isNaN (rt : Runtime) (x : value) : bool := is_nan (toNumber rt x).

(** [n - x], [n + x] and [-x] for a stored number [n] and a sent value [x]:
    [-] converts [x] to a number, [+] concatenates when [x] is a string. *)
Definition jsSub (rt : Runtime) (n : float) (x : value) : value :=
  VNumber (n - toNumber rt x)%float.

Definition jsAdd (rt : Runtime) (n : float) (x : value) : value :=
  match x with
  | VString s => VString (numberToString rt n ++ s)
  | _ => VNumber (n + toNumber rt x)%float
  end.

Definition jsNeg (rt : Runtime) (x : value) : value :=
  VNumber (- toNumber rt x)%float.

(** The cast of a value to a [Number] path: [null] and the empty string are
    nothing, a string or boolean is converted, and [NaN] is a [CastError]. *)
Definition castNumber (rt : Runtime) (x : value) : CastResult float :=
  match x with
  | VUndefined | VNull => NoValue
  | VBool b => Cast (if b then 1%float else 0%float)
  | VNumber n => if is_nan n then CastError else Cast n
  | VString s =>
      if (s =? EmptyString)%string then NoValue
      else if is_nan (stringToNumber rt s) then CastError
      else Cast (stringToNumber rt s)
  end.

(** [list.includes(s)] *)
Definition includes (l : list string) (s : string) : bool :=
  existsb (String.eqb s) l.

Definition orDefault {A} (x : option A) (d : A) : A :=
  match x with
  | Some a => a
  | None => d
  end.

(** ** Responses *)

Inductive Json :=
| JError (error : string)
| JTransaction (message : string) (transaction : Transaction.t)
| JBankAccount (message : string) (bankAccount : BankAccount.t)
| JDebt (message : string) (debt : Debt.t)
| JOneBankAccount (bankAccount : BankAccount.t)
| JOneDebt (debt : Debt.t)
| JBankAccounts (bankAccounts : list BankAccount.t)
| JDebts (debts : list Debt.t).

Record Response := {
  statusCode : nat;
  json : Json
}.

Definition InternalServerError : Response :=
  {| statusCode := 500; json := JError "Internal Server Error" |}.

(** ** Computations that read and write the store and may throw *)

Inductive Outcome (A : Type) :=
| Value (a : A)
| Thrown (message : string).
Arguments Value {A} a.
Arguments Thrown {A} message.

Definition Op (A : Type) := Store -> Store * Outcome A.

Definition ret {A} (a : A) : Op A := fun s => (s, Value a).

Definition throw {A} (message : string) : Op A := fun s => (s, Thrown message).

Definition bind {A B} (c : Op A) (k : A -> Op B) : Op B :=
  fun s =>
    match c s with
    | (s', Value a) => k a s'
    | (s', Thrown m) => (s', Thrown m)
    end.

Notation "x <- c ;; k" := (bind c (fun x => k))
  (at level 61, c at next level, right associativity).
Notation "c ;;; k" := (bind c (fun _ => k))
  (at level 61, right associativity).

(** [try { ... } catch { abortTransaction; 500 }] around a session: the
    writes of the body reach the store only when it runs to
    [commitTransaction]. *)
Definition withTransaction (body : Op Response) (s : Store) : Store * Response :=
  match body s with
  | (s', Value r) => (s', r)
  | (_, Thrown _) => (s, InternalServerError)
  end.

(** [try { ... } catch { 500 }] without a session: every write made before
    the exception stays. *)
Definition tryCatch (body : Op Response) (s : Store) : Store * Response :=
  match body s with
  | (s', Value r) => (s', r)
  | (s', Thrown _) => (s', InternalServerError)
  end.

(** ** Requests *)

(** [req.body]: every field a handler destructures from it. *)
Module Req.
Record body := {
  description : option string;
  amount : value;
  category : option string;
  date : value;
  type : option string;
  sourceAccount : option string;
  destinationAccount : option string;
  accountNumber : option string;
  newBalance : value;
  totalAmount : value;
  settledAmount : value;
  pendingAmount : value;
  status : option string;
  debtor : option string;
  debtorAccount : option string;
  creditorAccount : option string;
  creditor : option string;
  isRecurring : option bool;
  recurrence : option RecurrenceInit;
  newStatus : option string
}.

Definition empty : body :=
  {| description := None; amount := VUndefined; category := None;
     date := VUndefined; type := None; sourceAccount := None;
     destinationAccount := None; accountNumber := None; newBalance := VUndefined;
     totalAmount := VUndefined; settledAmount := VUndefined;
     pendingAmount := VUndefined; status := None; debtor := None;
     debtorAccount := None; creditorAccount := None; creditor := None;
     isRecurring := None; recurrence := None; newStatus := None |}.

Definition empty_with_amount (a : value) : body :=
  {| description := None; amount := a; category := None; date := VUndefined;
     type := None; sourceAccount := None; destinationAccount := None;
     accountNumber := None; newBalance := VUndefined; totalAmount := VUndefined;
     settledAmount := VUndefined; pendingAmount := VUndefined; status := None;
     debtor := None; debtorAccount := None; creditorAccount := None;
     creditor := None; isRecurring := None; recurrence := None;
     newStatus := None |}.
End Req.

(** What the environment supplies to one request: the [_id] the driver
    generates for a new document and the reading of [Date.now]. *)
Record Env := {
  newId : ObjectId;
  now : Date
}.

Inductive Route :=
| POST_transactions_expense
| POST_transactions_income
| POST_transactions_self_transfer
| GET_bank_accounts
| GET_bank_accounts_id (accountId : string)
| POST_bank_accounts
| PATCH_bank_accounts_update_balance (accountId : string)
| POST_debts
| GET_debts
| GET_debts_id (debtId : string)
| PATCH_debts_update_status (debtId : string)
| POST_debts_transactions (debtId : string).

(** *** models.js: validation of a loaded document on [save]

    [save] validates every path of a document it loaded, not only the
    modified ones: the required strings must be non-empty and the enumerated
    strings must be in their enumeration. *)

Definition bankAccountSchema_validate (a : BankAccount.t) : bool :=
  negb (BankAccount.accountNumber a =? EmptyString)%string.

Definition debtSchema_validate (d : Debt.t) : bool :=
  negb (Debt.description d =? EmptyString)%string
  && includes ["pending"; "settled"] (Debt.status d)
  && includes ["negative"; "positive"] (Debt.type d)
  && match Recurrence.frequency (Debt.recurrence d) with
     | Some f => includes ["daily"; "weekly"; "monthly"; "yearly"] f
     | None => true
     end.
Section Routes.

(** The runtime the handlers run on. *)
Variable rt : Runtime.

(** Cast of an optional reference path: an absent value stays absent. *)
Definition castRef (x : option string) : option (option ObjectId) :=
  match x with
  | None => Some None
  | Some s => option_map Some (castObjectId rt s)
  end.

(** Cast of a required [Number] path: nothing to store fails the [required]
    validator, a [CastError] fails validation. *)
Definition requiredNumber (x : value) : option float :=
  match castNumber rt x with
  | Cast n => Some n
  | NoValue | CastError => None
  end.

(** Cast of an optional [Number] or [Date] path with a default: the default
    stands in for [undefined] only, [null] is stored as nothing. *)
Definition optionalNumber (x : value) (default : option float) : option (option float) :=
  match x with
  | VUndefined => Some default
  | _ =>
      match castNumber rt x with
      | NoValue => Some None
      | Cast n => Some (Some n)
      | CastError => None
      end
  end.

Definition optionalDate (x : value) (default : option Date) : option (option Date) :=
  match x with
  | VUndefined => Some default
  | _ =>
      match castDate rt x with
      | NoValue => Some None
      | Cast d => Some (Some d)
      | CastError => None
      end
  end.

(** *** models.js: casting and validation on [save] of a new document *)

Definition transactionSchema (e : Env) (o : TransactionInit) : option Transaction.t :=
  match ti_description o, requiredNumber (ti_amount o),
        optionalDate (ti_date o) (Some (now e)) with
  | Some description, Some amount, Some date =>
      let type := orDefault (ti_type o) "expense" in
      if (description =? EmptyString)%string then None
      else if negb (includes ["income"; "expense"; "self-transfer"; "debt"] type) then None
      else
        match castRef (ti_sourceAccount o), castRef (ti_destinationAccount o),
              castRef (ti_debt o) with
        | Some sourceAccount, Some destinationAccount, Some debt =>
            Some {| Transaction._id := newId e;
                    Transaction.description := description;
                    Transaction.amount := amount;
                    Transaction.category := ti_category o;
                    Transaction.date := date;
                    Transaction.type := type;
                    Transaction.sourceAccount := sourceAccount;
                    Transaction.destinationAccount := destinationAccount;
                    Transaction.debt := debt |}
        | _, _, _ => None
        end
  | _, _, _ => None
  end.

Definition bankAccountSchema (e : Env) (accountNumber : option string) (balance : float)
  : option BankAccount.t :=
  match accountNumber with
  | Some accountNumber =>
      if (accountNumber =? EmptyString)%string then None
      else Some {| BankAccount._id := newId e;
                   BankAccount.accountNumber := accountNumber;
                   BankAccount.balance := balance |}
  | None => None
  end.

Definition recurrenceSchema (o : option RecurrenceInit) : option Recurrence.t :=
  match o with
  | None =>
      Some {| Recurrence.frequency := None; Recurrence.interval := Some 1%float;
              Recurrence.nextDueDate := None |}
  | Some r =>
      if match ri_frequency r with
         | Some f => negb (includes ["daily"; "weekly"; "monthly"; "yearly"] f)
         | None => false
         end
      then None
      else
        match optionalNumber (ri_interval r) (Some 1%float),
              optionalDate (ri_nextDueDate r) None with
        | Some interval, Some nextDueDate =>
            Some {| Recurrence.frequency := ri_frequency r;
                    Recurrence.interval := interval;
                    Recurrence.nextDueDate := nextDueDate |}
        | _, _ => None
        end
  end.

Definition debtSchema (e : Env) (o : DebtInit) : option Debt.t :=
  match di_description o, requiredNumber (di_totalAmount o),
        requiredNumber (di_settledAmount o), requiredNumber (di_pendingAmount o) with
  | Some description, Some totalAmount, Some settledAmount, Some pendingAmount =>
      let status := orDefault (di_status o) "pending" in
      let type := orDefault (di_type o) "positive" in
      if (description =? EmptyString)%string then None
      else if negb (includes ["pending"; "settled"] status) then None
      else if negb (includes ["negative"; "positive"] type) then None
      else
        match castRef (di_debtorAccount o), castRef (di_creditorAccount o),
              recurrenceSchema (di_recurrence o) with
        | Some debtorAccount, Some creditorAccount, Some recurrence =>
            Some {| Debt._id := newId e;
                    Debt.description := description;
                    Debt.totalAmount := totalAmount;
                    Debt.settledAmount := settledAmount;
                    Debt.pendingAmount := pendingAmount;
                    Debt.status := status;
                    Debt.type := type;
                    Debt.date := now e;
                    Debt.debtor := di_debtor o;
                    Debt.debtorAccount := debtorAccount;
                    Debt.creditorAccount := creditorAccount;
                    Debt.creditor := di_creditor o;
                    Debt.isRecurring := orDefault (di_isRecurring o) false;
                    Debt.recurrence := recurrence |}
        | _, _, _ => None
        end
  | _, _, _, _ => None
  end.

(** *** Model methods, as operations on the store in use *)

Definition Transaction_save (e : Env) (o : TransactionInit) : Op Transaction.t :=
  fun s =>
    match transactionSchema e o with
    | None => (s, Thrown "Transaction validation failed")
    | Some t =>
        match insertOne Transaction._id t (transactions s) with
        | None => (s, Thrown "E11000 duplicate key error")
        | Some c =>
            ({| transactions := c; bankAccounts := bankAccounts s; debts := debts s |},
             Value t)
        end
    end.

Definition BankAccount_create (e : Env) (accountNumber : option string) (balance : float)
  : Op BankAccount.t :=
  fun s =>
    match bankAccountSchema e accountNumber balance with
    | None => (s, Thrown "BankAccount validation failed")
    | Some a =>
        match insertOne BankAccount._id a (bankAccounts s) with
        | None => (s, Thrown "E11000 duplicate key error")
        | Some c =>
            ({| transactions := transactions s; bankAccounts := c; debts := debts s |},
             Value a)
        end
    end.

Definition Debt_create (e : Env) (o : DebtInit) : Op Debt.t :=
  fun s =>
    match debtSchema e o with
    | None => (s, Thrown "Debt validation failed")
    | Some d =>
        match insertOne Debt._id d (debts s) with
        | None => (s, Thrown "E11000 duplicate key error")
        | Some c =>
            ({| transactions := transactions s; bankAccounts := bankAccounts s; debts := c |},
             Value d)
        end
    end.

(** [Model.findById(x)]: an absent [x] finds nothing, a text that is no
    ObjectId throws, an ObjectId is looked up. *)
Definition BankAccount_findById (x : option string) : Op (option BankAccount.t) :=
  fun s =>
    match x with
    | None => (s, Value None)
    | Some text =>
        match castObjectId rt text with
        | None => (s, Thrown "Cast to ObjectId failed")
        | Some k => (s, Value (findById BankAccount._id k (bankAccounts s)))
        end
    end.

Definition Debt_findById (x : option string) : Op (option Debt.t) :=
  fun s =>
    match x with
    | None => (s, Value None)
    | Some text =>
        match castObjectId rt text with
        | None => (s, Thrown "Cast to ObjectId failed")
        | Some k => (s, Value (findById Debt._id k (debts s)))
        end
    end.

Definition BankAccount_find : Op (list BankAccount.t) :=
  fun s => (s, Value (bankAccounts s)).

Definition Debt_find : Op (list Debt.t) :=
  fun s => (s, Value (debts s)).

(** [BankAccount.findOne({ accountNumber })] *)
Definition BankAccount_findOne (accountNumber : option string) : Op (option BankAccount.t) :=
  fun s =>
    (s, Value (find (fun a =>
                       match accountNumber with
                       | Some n => (BankAccount.accountNumber a =? n)%string
                       | None => false
                       end) (bankAccounts s))).

(** [account.balance = v; account.save()] on a loaded account: the value is
    cast to the [Number] path, a [CastError] makes the save throw, as does a
    document that fails validation; otherwise the stored document is
    replaced.  The handlers assign a truthy value or the result of an
    arithmetic on one, which never casts to nothing. *)
Definition BankAccount_setBalance_save (account : BankAccount.t) (v : value)
  : Op BankAccount.t :=
  fun s =>
    match castNumber rt v with
    | NoValue | CastError => (s, Thrown "BankAccount validation failed")
    | Cast b =>
        let account' := {| BankAccount._id := BankAccount._id account;
                           BankAccount.accountNumber := BankAccount.accountNumber account;
                           BankAccount.balance := b |} in
        if bankAccountSchema_validate account'
        then ({| transactions := transactions s;
                 bankAccounts := replaceOne BankAccount._id (BankAccount._id account)
                                   account' (bankAccounts s);
                 debts := debts s |},
              Value account')
        else (s, Thrown "BankAccount validation failed")
    end.

Definition Debt_with (debt : Debt.t) (totalAmount pendingAmount : float) (status : string)
  : Debt.t :=
  {| Debt._id := Debt._id debt;
     Debt.description := Debt.description debt;
     Debt.totalAmount := totalAmount;
     Debt.settledAmount := Debt.settledAmount debt;
     Debt.pendingAmount := pendingAmount;
     Debt.status := status;
     Debt.type := Debt.type debt;
     Debt.date := Debt.date debt;
     Debt.debtor := Debt.debtor debt;
     Debt.debtorAccount := Debt.debtorAccount debt;
     Debt.creditorAccount := Debt.creditorAccount debt;
     Debt.creditor := Debt.creditor debt;
     Debt.isRecurring := Debt.isRecurring debt;
     Debt.recurrence := Debt.recurrence debt |}.

(** [debt.save()] on a loaded and modified debt. *)
Definition Debt_write (debt' : Debt.t) : Op Debt.t :=
  fun s =>
    if debtSchema_validate debt'
    then ({| transactions := transactions s;
             bankAccounts := bankAccounts s;
             debts := replaceOne Debt._id (Debt._id debt') debt' (debts s) |},
          Value debt')
    else (s, Thrown "Debt validation failed").

(** [debt.status = v; debt.save()] *)
Definition Debt_setStatus_save (debt : Debt.t) (v : string) : Op Debt.t :=
  Debt_write (Debt_with debt (Debt.totalAmount debt) (Debt.pendingAmount debt) v).

(** [debt.totalAmount = t; debt.pendingAmount = p; debt.save()]: both paths
    are required numbers. *)
Definition Debt_setAmounts_save (debt : Debt.t) (t p : value) : Op Debt.t :=
  match requiredNumber t, requiredNumber p with
  | Some t, Some p => Debt_write (Debt_with debt t p (Debt.status debt))
  | _, _ => throw "Debt validation failed"
  end.

Definition respond (code : nat) (j : Json) : Response :=
  {| statusCode := code; json := j |}.

(** *** routes.js *)

Definition post_transactions_expense (e : Env) (req : Req.body) : Store -> Store * Response :=
  withTransaction
    (let description := Req.description req in
     let amount := Req.amount req in
     let category := Req.category req in
     let date := Req.date req in
     let sourceAccount := Req.sourceAccount req in
     if negb (truthyS description) || negb (truthyN amount) || negb (truthyS sourceAccount)
     then throw "Description, amount, and sourceAccount are required fields."
     else
       savedExpense <- Transaction_save e
         {| ti_description := description; ti_amount := amount; ti_category := category;
            ti_date := date; ti_type := Some "expense"; ti_sourceAccount := sourceAccount;
            ti_destinationAccount := None; ti_debt := None |} ;;
       sourceAccountObject <- BankAccount_findById sourceAccount ;;
       match sourceAccountObject with
       | None => throw "Source account not found."
       | Some sourceAccountObject =>
           BankAccount_setBalance_save sourceAccountObject
             (jsSub rt (BankAccount.balance sourceAccountObject) amount) ;;;
           ret (respond 200 (JTransaction "Expense added successfully" savedExpense))
       end).

Definition post_transactions_income (e : Env) (req : Req.body) : Store -> Store * Response :=
  withTransaction
    (let description := Req.description req in
     let amount := Req.amount req in
     let category := Req.category req in
     let date := Req.date req in
     let destinationAccount := Req.destinationAccount req in
     if negb (truthyS description) || negb (truthyN amount)
        || negb (truthyS destinationAccount)
     then throw "Description, amount, and destinationAccount are required fields."
     else
       savedIncome <- Transaction_save e
         {| ti_description := description; ti_amount := amount; ti_category := category;
            ti_date := date; ti_type := Some "income"; ti_sourceAccount := None;
            ti_destinationAccount := destinationAccount; ti_debt := None |} ;;
       destinationAccountObject <- BankAccount_findById destinationAccount ;;
       match destinationAccountObject with
       | None => throw "Destination account not found."
       | Some destinationAccountObject =>
           BankAccount_setBalance_save destinationAccountObject
             (jsAdd rt (BankAccount.balance destinationAccountObject) amount) ;;;
           ret (respond 200 (JTransaction "Income added successfully" savedIncome))
       end).

Definition post_transactions_self_transfer (e : Env) (req : Req.body)
  : Store -> Store * Response :=
  withTransaction
    (let amount := Req.amount req in
     let sourceAccount := Req.sourceAccount req in
     let destinationAccount := Req.destinationAccount req in
     let description := Req.description req in
     if negb (truthyN amount) || negb (truthyS sourceAccount)
        || negb (truthyS destinationAccount)
     then throw "Amount, sourceAccount, and destinationAccount are required fields."
     else
       savedSelfTransaction <- Transaction_save e
         {| ti_description := description; ti_amount := amount; ti_category := None;
            ti_date := VUndefined; ti_type := Some "self-transfer";
            ti_sourceAccount := sourceAccount;
            ti_destinationAccount := destinationAccount; ti_debt := None |} ;;
       sourceAccountObject <- BankAccount_findById sourceAccount ;;
       match sourceAccountObject with
       | None => throw "Source account not found."
       | Some sourceAccountObject =>
           BankAccount_setBalance_save sourceAccountObject
             (jsSub rt (BankAccount.balance sourceAccountObject) amount) ;;;
           destinationAccountObject <- BankAccount_findById destinationAccount ;;
           match destinationAccountObject with
           | None => throw "Destination account not found."
           | Some destinationAccountObject =>
               BankAccount_setBalance_save destinationAccountObject
                 (jsAdd rt (BankAccount.balance destinationAccountObject) amount) ;;;
               ret (respond 200
                      (JTransaction "Self-transfer completed successfully"
                         savedSelfTransaction))
           end
       end).

Definition get_bank_accounts : Store -> Store * Response :=
  tryCatch
    (bankAccounts <- BankAccount_find ;;
     ret (respond 200 (JBankAccounts bankAccounts))).

Definition get_bank_accounts_id (accountId : string) : Store -> Store * Response :=
  tryCatch
    (bankAccount <- BankAccount_findById (Some accountId) ;;
     match bankAccount with
     | None => ret (respond 404 (JError "Bank account not found."))
     | Some bankAccount => ret (respond 200 (JOneBankAccount bankAccount))
     end).

Definition post_bank_accounts (e : Env) (req : Req.body) : Store -> Store * Response :=
  let accountNumber := Req.accountNumber req in
  tryCatch
    (if negb (truthyS accountNumber)
     then ret (respond 400 (JError "Account number is a required field."))
     else
       existingAccount <- BankAccount_findOne accountNumber ;;
       match existingAccount with
       | Some _ =>
           ret (respond 400
                  (JError "Account with the same account number already exists."))
       | None =>
           savedBankAccount <- BankAccount_create e accountNumber 0%float ;;
           ret (respond 201
                  (JBankAccount "Bank account created successfully" savedBankAccount))
       end).

Definition patch_bank_accounts_update_balance (accountId : string) (req : Req.body)
  : Store -> Store * Response :=
  let newBalance := Req.newBalance req in
  tryCatch
    (if negb (truthyN newBalance) || isNaN rt newBalance
     then ret (respond 400 (JError "New balance must be a valid number."))
     else
       bankAccount <- BankAccount_findById (Some accountId) ;;
       match bankAccount with
       | None => ret (respond 404 (JError "Bank account not found."))
       | Some bankAccount =>
           bankAccount <- BankAccount_setBalance_save bankAccount newBalance ;;
           ret (respond 200
                  (JBankAccount "Bank account balance updated successfully" bankAccount))
       end).

Definition post_debts (e : Env) (req : Req.body) : Store -> Store * Response :=
  let description := Req.description req in
  let totalAmount := Req.totalAmount req in
  let settledAmount := Req.settledAmount req in
  let pendingAmount := Req.pendingAmount req in
  let status := Req.status req in
  let type := Req.type req in
  let debtor := Req.debtor req in
  let debtorAccount := Req.debtorAccount req in
  let creditorAccount := Req.creditorAccount req in
  let creditor := Req.creditor req in
  let isRecurring := Req.isRecurring req in
  let recurrence := Req.recurrence req in
  tryCatch
    (if negb (truthyS description) || negb (truthyN totalAmount) || negb (truthyS status)
        || negb (truthyS type)
        || negb (truthyS debtor || truthyS debtorAccount)
        || negb (truthyS creditor || truthyS creditorAccount)
     then ret (respond 400 (JError "Required fields are missing."))
     else
       savedDebt <- Debt_create e
         {| di_description := description; di_totalAmount := totalAmount;
            di_settledAmount := settledAmount; di_pendingAmount := pendingAmount;
            di_status := status; di_type := type; di_debtor := debtor;
            di_debtorAccount := debtorAccount; di_creditorAccount := creditorAccount;
            di_creditor := creditor; di_isRecurring := isRecurring;
            di_recurrence := recurrence |} ;;
       ret (respond 201 (JDebt "Debt created successfully" savedDebt))).

Definition get_debts : Store -> Store * Response :=
  tryCatch
    (debts <- Debt_find ;;
     ret (respond 200 (JDebts debts))).

Definition get_debts_id (debtId : string) : Store -> Store * Response :=
  tryCatch
    (debt <- Debt_findById (Some debtId) ;;
     match debt with
     | None => ret (respond 404 (JError "Debt not found."))
     | Some debt => ret (respond 200 (JOneDebt debt))
     end).

Definition patch_debts_update_status (debtId : string) (req : Req.body)
  : Store -> Store * Response :=
  let newStatus := Req.newStatus req in
  tryCatch
    (match newStatus with
     | None => ret (respond 400 (JError "Invalid status provided."))
     | Some status =>
         if negb (truthyS newStatus) || negb (includes ["pending"; "settled"] status)
         then ret (respond 400 (JError "Invalid status provided."))
         else
           debt <- Debt_findById (Some debtId) ;;
           match debt with
           | None => ret (respond 404 (JError "Debt not found."))
           | Some debt =>
               debt <- Debt_setStatus_save debt status ;;
               ret (respond 200 (JDebt "Debt status updated successfully" debt))
           end
     end).

Definition post_debts_transactions (e : Env) (debtId : string) (req : Req.body)
  : Store -> Store * Response :=
  let description := Req.description req in
  let amount := Req.amount req in
  let category := Req.category req in
  let date := Req.date req in
  let type := Req.type req in
  let sourceAccount := Req.sourceAccount req in
  withTransaction
    (if negb (truthyS description) || negb (truthyN amount) || negb (truthyS type)
        || negb (truthyS sourceAccount)
     then throw "Required fields are missing."
     else
       debt <- Debt_findById (Some debtId) ;;
       match debt with
       | None => throw "Debt not found."
       | Some debt =>
           let isPositiveDebt := (Debt.type debt =? "positive")%string in
           savedDebtTransaction <- Transaction_save e
             {| ti_description := description; ti_amount := amount;
                ti_category := category; ti_date := date; ti_type := type;
                ti_sourceAccount := sourceAccount; ti_destinationAccount := None;
                ti_debt := Some debtId |} ;;
           let accountToUpdate :=
             if isPositiveDebt then Debt.debtor debt else Debt.creditor debt in
           account <- BankAccount_findById accountToUpdate ;;
           match account with
           | None => throw "Account not found."
           | Some account =>
               BankAccount_setBalance_save account
                 (jsAdd rt (BankAccount.balance account)
                    (if isPositiveDebt then amount else jsNeg rt amount)) ;;;
               Debt_setAmounts_save debt
                 (jsAdd rt (Debt.totalAmount debt) amount)
                 (jsAdd rt (Debt.pendingAmount debt) amount) ;;;
               ret (respond 201
                      (JTransaction "Debt transaction created successfully"
                         savedDebtTransaction))
           end
       end).

(** The router: one handler per method and path. *)
Definition router (e : Env) (r : Route) (req : Req.body) : Store -> Store * Response :=
  match r with
  | POST_transactions_expense => post_transactions_expense e req
  | POST_transactions_income => post_transactions_income e req
  | POST_transactions_self_transfer => post_transactions_self_transfer e req
  | GET_bank_accounts => get_bank_accounts
  | GET_bank_accounts_id accountId => get_bank_accounts_id accountId
  | POST_bank_accounts => post_bank_accounts e req
  | PATCH_bank_accounts_update_balance accountId =>
      patch_bank_accounts_update_balance accountId req
  | POST_debts => post_debts e req
  | GET_debts => get_debts
  | GET_debts_id debtId => get_debts_id debtId
  | PATCH_debts_update_status debtId => patch_debts_update_status debtId req
  | POST_debts_transactions debtId => post_debts_transactions e debtId req
  end.

End Routes.

(** ** A sample runtime

    Concrete conversions on which the handlers can be run.  They agree with
    the runtime on the values the samples below use: the text form of an
    ObjectId is 24 hexadecimal digits, read here as a number; a string of up
    to 18 decimal digits, with or without a minus sign, converts to the
    integer it writes; an integer below 10^21 prints as its decimal digits;
    and a number casts to a Date when it lies within 8.64e15 milliseconds of
    the epoch.  Other number texts, and dates sent as text, are not read. *)

Definition hexDigit (c : Ascii.ascii) : option N :=
  let n := Ascii.N_of_ascii c in
  if ((48 <=? n) && (n <=? 57))%N then Some (n - 48)%N
  else if ((97 <=? n) && (n <=? 102))%N then Some (n - 87)%N
  else if ((65 <=? n) && (n <=? 70))%N then Some (n - 55)%N
  else None.

Fixpoint hexValue (s : string) (acc : N) : option N :=
  match s with
  | EmptyString => Some acc
  | String c r =>
      match hexDigit c with
      | Some d => hexValue r (16 * acc + d)%N
      | None => None
      end
  end.

Definition hexObjectId (s : string) : option ObjectId :=
  if (String.length s =? 24)%nat then hexValue s 0%N else None.

Fixpoint digitsValue (s : string) (acc : Z) : option Z :=
  match s with
  | EmptyString => Some acc
  | String c r =>
      let n := Z.of_N (Ascii.N_of_ascii c) in
      if (48 <=? n) && (n <=? 57) then digitsValue r (10 * acc + (n - 48)) else None
  end.

Definition floatOfZ (z : Z) : float :=
  if z <? 0 then (- of_uint63 (Uint63.of_Z (- z)))%float
  else of_uint63 (Uint63.of_Z z).

(** [Number(s)] on the empty string and on the decimal integers of up to 18
    digits. *)
Definition decimalToNumber (s : string) : float :=
  match s with
  | EmptyString => 0%float
  | String "-"%char r =>
      match r, digitsValue r 0 with
      | String _ _, Some z => (- floatOfZ z)%float
      | _, _ => nan
      end
  | _ =>
      match digitsValue s 0 with
      | Some z => floatOfZ z
      | None => nan
      end
  end.

(** The integer a number is, if it is one; the integer part of a finite
    number. *)
Definition integerPart (n : float) : option (Z * bool) :=
  match Prim2SF n with
  | S754_zero _ => Some (0, true)
  | S754_finite sign m e =>
      let magnitude :=
        if 0 <=? e then (Z.pos m * 2 ^ e, true)
        else (Z.pos m / 2 ^ (- e), Z.pos m mod 2 ^ (- e) =? 0) in
      Some (if sign then - fst magnitude else fst magnitude, snd magnitude)
  | _ => None
  end.

Definition exactInteger (n : float) : option Z :=
  match integerPart n with
  | Some (z, true) => Some z
  | _ => None
  end.

(** The decimal digits of a natural number, in front of [acc]. *)
Fixpoint decimalDigits (fuel : nat) (z : Z) (acc : string) : string :=
  match fuel with
  | O => acc
  | S fuel' =>
      let acc' := String (Ascii.ascii_of_N (Z.to_N (48 + z mod 10))) acc in
      if z <? 10 then acc' else decimalDigits fuel' (z / 10) acc'
  end.

(** [String(n)] on the integers below 10^21. *)
Definition integerToString (n : float) : string :=
  match exactInteger n with
  | Some z =>
      if z <? 0 then String "-"%char (decimalDigits 400 (- z) EmptyString)
      else decimalDigits 400 z EmptyString
  | None => "NaN"
  end.

(** The cast to a Date of [null], the empty string, the booleans and the
    numbers: a time stamp beyond 8.64e15 ms is no date. *)
Definition timeStampToDate (v : value) : CastResult Date :=
  match v with
  | VUndefined | VNull => NoValue
  | VBool _ => CastError
  | VNumber n =>
      match integerPart n with
      | Some (z, _) => if Z.abs z <=? 8640000000000000 then Cast z else CastError
      | None => CastError
      end
  | VString s => if (s =? EmptyString)%string then NoValue else CastError
  end.

Definition sampleRuntime : Runtime :=
  {| castObjectId := hexObjectId;
     stringToNumber := decimalToNumber;
     numberToString := integerToString;
     castDate := timeStampToDate |}.

(** ** Reading the store *)

(** The stored account a request reference denotes, if any. *)
Definition lookupAccount (castObjectId : string -> option ObjectId)
  (x : option string) (s : Store) : option BankAccount.t :=
  match x with
  | Some text =>
      match castObjectId text with
      | Some k => findById BankAccount._id k (bankAccounts s)
      | None => None
      end
  | None => None
  end.

Definition balanceOf (k : ObjectId) (s : Store) : option float :=
  option_map BankAccount.balance (findById BankAccount._id k (bankAccounts s)).

(** Every stored account and debt satisfies its schema, as documents written
    through the routes do. *)
Definition storeValid (s : Store) : bool :=
  forallb bankAccountSchema_validate (bankAccounts s)
  && forallb debtSchema_validate (debts s).

(** ** Sample data *)

Definition env0 : Env := {| newId := 1000%N; now := 1700000000000 |}.

Definition idA : string := "64b7f0a1c2d3e4f5a6b7c8d9".
Definition idB : string := "64b7f0a1c2d3e4f5a6b7c8da".
Definition idMissing : string := "64b7f0a1c2d3e4f5a6b7c8ff".
Definition idDebtP : string := "0000000000000000000000d1".
Definition idDebtN : string := "0000000000000000000000d2".

Definition keyOf (text : string) : ObjectId := orDefault (hexObjectId text) 0%N.

Definition accountA : BankAccount.t :=
  {| BankAccount._id := keyOf idA; BankAccount.accountNumber := "A001";
     BankAccount.balance := 100%float |}.

Definition accountB : BankAccount.t :=
  {| BankAccount._id := keyOf idB; BankAccount.accountNumber := "A002";
     BankAccount.balance := 0%float |}.

Definition noRecurrence : Recurrence.t :=
  {| Recurrence.frequency := None; Recurrence.interval := Some 1%float;
     Recurrence.nextDueDate := None |}.

(** A debt whose [debtor] text is the ObjectId of account A, and one whose
    [creditor] text is the ObjectId of account B. *)
Definition debtP : Debt.t :=
  {| Debt._id := keyOf idDebtP; Debt.description := "loan to a friend";
     Debt.totalAmount := 50%float; Debt.settledAmount := 0%float;
     Debt.pendingAmount := 50%float;
     Debt.status := "pending"; Debt.type := "positive"; Debt.date := 1690000000000;
     Debt.debtor := Some idA; Debt.debtorAccount := None;
     Debt.creditorAccount := None; Debt.creditor := Some "me";
     Debt.isRecurring := false; Debt.recurrence := noRecurrence |}.

Definition debtN : Debt.t :=
  {| Debt._id := keyOf idDebtN; Debt.description := "loan from the bank";
     Debt.totalAmount := 70%float; Debt.settledAmount := 0%float;
     Debt.pendingAmount := 70%float;
     Debt.status := "pending"; Debt.type := "negative"; Debt.date := 1690000000000;
     Debt.debtor := Some "me"; Debt.debtorAccount := None;
     Debt.creditorAccount := None; Debt.creditor := Some idB;
     Debt.isRecurring := false; Debt.recurrence := noRecurrence |}.

Definition store0 : Store :=
  {| transactions := []; bankAccounts := [accountA; accountB]; debts := [debtP; debtN] |}.

(** The largest power of two below which every integer is a number: 2^53. *)
Definition twoTo53 : float := 9007199254740992%float.

(** Account A empty, account B and the positive debt at 2^53. *)
Definition storeAt2To53 : Store :=
  {| transactions := [];
     bankAccounts :=
       [ {| BankAccount._id := keyOf idA; BankAccount.accountNumber := "A001";
            BankAccount.balance := 0%float |};
         {| BankAccount._id := keyOf idB; BankAccount.accountNumber := "A002";
            BankAccount.balance := twoTo53 |} ];
     debts :=
       [ {| Debt._id := keyOf idDebtP; Debt.description := "loan to a friend";
            Debt.totalAmount := twoTo53; Debt.settledAmount := 0%float;
            Debt.pendingAmount := twoTo53;
            Debt.status := "pending"; Debt.type := "positive";
            Debt.date := 1690000000000;
            Debt.debtor := Some idA; Debt.debtorAccount := None;
            Debt.creditorAccount := None; Debt.creditor := Some "me";
            Debt.isRecurring := false; Debt.recurrence := noRecurrence |} ] |}.

Definition withAmount (a : value) (description : string) : Req.body :=
  {| Req.description := Some description; Req.amount := a;
     Req.category := None; Req.date := VUndefined; Req.type := None;
     Req.sourceAccount := None; Req.destinationAccount := None;
     Req.accountNumber := None; Req.newBalance := VUndefined;
     Req.totalAmount := VUndefined; Req.settledAmount := VUndefined;
     Req.pendingAmount := VUndefined; Req.status := None;
     Req.debtor := None; Req.debtorAccount := None; Req.creditorAccount := None;
     Req.creditor := None; Req.isRecurring := None; Req.recurrence := None;
     Req.newStatus := None |}.

Definition from (src : string) (r : Req.body) : Req.body :=
  {| Req.description := Req.description r; Req.amount := Req.amount r;
     Req.category := Req.category r; Req.date := Req.date r; Req.type := Req.type r;
     Req.sourceAccount := Some src; Req.destinationAccount := Req.destinationAccount r;
     Req.accountNumber := Req.accountNumber r; Req.newBalance := Req.newBalance r;
     Req.totalAmount := Req.totalAmount r; Req.settledAmount := Req.settledAmount r;
     Req.pendingAmount := Req.pendingAmount r; Req.status := Req.status r;
     Req.debtor := Req.debtor r; Req.debtorAccount := Req.debtorAccount r;
     Req.creditorAccount := Req.creditorAccount r; Req.creditor := Req.creditor r;
     Req.isRecurring := Req.isRecurring r; Req.recurrence := Req.recurrence r;
     Req.newStatus := Req.newStatus r |}.

Definition to (dst : string) (r : Req.body) : Req.body :=
  {| Req.description := Req.description r; Req.amount := Req.amount r;
     Req.category := Req.category r; Req.date := Req.date r; Req.type := Req.type r;
     Req.sourceAccount := Req.sourceAccount r; Req.destinationAccount := Some dst;
     Req.accountNumber := Req.accountNumber r; Req.newBalance := Req.newBalance r;
     Req.totalAmount := Req.totalAmount r; Req.settledAmount := Req.settledAmount r;
     Req.pendingAmount := Req.pendingAmount r; Req.status := Req.status r;
     Req.debtor := Req.debtor r; Req.debtorAccount := Req.debtorAccount r;
     Req.creditorAccount := Req.creditorAccount r; Req.creditor := Req.creditor r;
     Req.isRecurring := Req.isRecurring r; Req.recurrence := Req.recurrence r;
     Req.newStatus := Req.newStatus r |}.

Definition ofType (ty : string) (r : Req.body) : Req.body :=
  {| Req.description := Req.description r; Req.amount := Req.amount r;
     Req.category := Req.category r; Req.date := Req.date r; Req.type := Some ty;
     Req.sourceAccount := Req.sourceAccount r;
     Req.destinationAccount := Req.destinationAccount r;
     Req.accountNumber := Req.accountNumber r; Req.newBalance := Req.newBalance r;
     Req.totalAmount := Req.totalAmount r; Req.settledAmount := Req.settledAmount r;
     Req.pendingAmount := Req.pendingAmount r; Req.status := Req.status r;
     Req.debtor := Req.debtor r; Req.debtorAccount := Req.debtorAccount r;
     Req.creditorAccount := Req.creditorAccount r; Req.creditor := Req.creditor r;
     Req.isRecurring := Req.isRecurring r; Req.recurrence := Req.recurrence r;
     Req.newStatus := Req.newStatus r |}.


(** ** The theorems on sample requests *)

Definition spend (a : float) (account : string) : Req.body :=
  from account (withAmount (VNumber a) "food").

Definition earn (a : float) (account : string) : Req.body :=
  to account (withAmount (VNumber a) "salary").

Definition transfer (a : float) (source destination : string) : Req.body :=
  to destination (from source (withAmount (VNumber a) "savings")).

Definition repay (a : float) : Req.body :=
  ofType "debt" (from idA (withAmount (VNumber a) "repayment")).

(** The same requests with the amount sent as text. *)
Definition earnText (a : string) (account : string) : Req.body :=
  to account (withAmount (VString a) "salary").


Definition openAccount (n : string) : Req.body :=
  {| Req.description := None; Req.amount := VUndefined; Req.category := None;
     Req.date := VUndefined; Req.type := None; Req.sourceAccount := None;
     Req.destinationAccount := None; Req.accountNumber := Some n;
     Req.newBalance := VUndefined; Req.totalAmount := VUndefined;
     Req.settledAmount := VUndefined; Req.pendingAmount := VUndefined;
     Req.status := None; Req.debtor := None;
     Req.debtorAccount := None; Req.creditorAccount := None; Req.creditor := None;
     Req.isRecurring := None; Req.recurrence := None; Req.newStatus := None |}.

Definition setBalance (b : value) : Req.body :=
  {| Req.description := None; Req.amount := VUndefined; Req.category := None;
     Req.date := VUndefined; Req.type := None; Req.sourceAccount := None;
     Req.destinationAccount := None; Req.accountNumber := None;
     Req.newBalance := b; Req.totalAmount := VUndefined;
     Req.settledAmount := VUndefined; Req.pendingAmount := VUndefined;
     Req.status := None; Req.debtor := None;
     Req.debtorAccount := None; Req.creditorAccount := None; Req.creditor := None;
     Req.isRecurring := None; Req.recurrence := None; Req.newStatus := None |}.

Definition setStatus (v : string) : Req.body :=
  {| Req.description := None; Req.amount := VUndefined; Req.category := None;
     Req.date := VUndefined; Req.type := None; Req.sourceAccount := None;
     Req.destinationAccount := None; Req.accountNumber := None;
     Req.newBalance := VUndefined; Req.totalAmount := VUndefined;
     Req.settledAmount := VUndefined; Req.pendingAmount := VUndefined;
     Req.status := None; Req.debtor := None;
     Req.debtorAccount := None; Req.creditorAccount := None; Req.creditor := None;
     Req.isRecurring := None; Req.recurrence := None; Req.newStatus := Some v |}.

(** A debt-creation body with every checked field and [pendingAmount], but no
    [settledAmount]. *)
Definition lend : Req.body :=
  {| Req.description := Some "loan to a friend"; Req.amount := VUndefined;
     Req.category := None; Req.date := VUndefined; Req.type := Some "positive";
     Req.sourceAccount := None; Req.destinationAccount := None;
     Req.accountNumber := None; Req.newBalance := VUndefined;
     Req.totalAmount := VNumber 50%float;
     Req.settledAmount := VUndefined; Req.pendingAmount := VNumber 50%float;
     Req.status := Some "pending"; Req.debtor := Some "Asha";
     Req.debtorAccount := None; Req.creditorAccount := None;
     Req.creditor := Some "me"; Req.isRecurring := None; Req.recurrence := None;
     Req.newStatus := None |}.

(** ** How a collection changes over a request

    A collection changes by replacing a stored document with one of the same
    [_id] that [keeps] what the route must not touch, or by inserting a
    document under an unused [_id] that the collection [admits]. *)

Section Evolution.
Context {D : Type} (ident : D -> ObjectId).
Variable keeps : D -> D -> Prop.
Variable admits : list D -> D -> Prop.

Inductive evolves : list D -> list D -> Prop :=
| evolves_refl (c : list D) : evolves c c
| evolves_replace (c c' : list D) (k : ObjectId) (d d' : D) :
    evolves c c' ->
    findById ident k c' = Some d -> ident d' = k -> keeps d d' ->
    evolves c (replaceOne ident k d' c')
| evolves_insert (c c' : list D) (d : D) :
    evolves c c' ->
    findById ident (ident d) c' = None -> admits c' d ->
    evolves c (c' ++ [d]).

End Evolution.

(** What a route may do to an account: change its balance. *)
Definition keepsAccount (a a' : BankAccount.t) : Prop :=
  BankAccount.accountNumber a' = BankAccount.accountNumber a.

(** An account may be added with balance 0 under a number no account has. *)
Definition admitsAccount (c : list BankAccount.t) (a : BankAccount.t) : Prop :=
  BankAccount.balance a = 0%float /\
  forall x, In x c -> BankAccount.accountNumber x <> BankAccount.accountNumber a.

(** What a route may do to a debt: change its status, its [totalAmount] and
    its [pendingAmount]. *)
Definition keepsDebt (d d' : Debt.t) : Prop :=
  Debt.description d' = Debt.description d /\
  Debt.settledAmount d' = Debt.settledAmount d /\
  Debt.type d' = Debt.type d /\
  Debt.date d' = Debt.date d /\
  Debt.debtor d' = Debt.debtor d /\
  Debt.debtorAccount d' = Debt.debtorAccount d /\
  Debt.creditorAccount d' = Debt.creditorAccount d /\
  Debt.creditor d' = Debt.creditor d /\
  Debt.isRecurring d' = Debt.isRecurring d /\
  Debt.recurrence d' = Debt.recurrence d.

Definition admitsDebt (c : list Debt.t) (d : Debt.t) : Prop := True.

(** No two documents of a collection share an [_id], no two accounts an
    [accountNumber]. *)
Definition idsUnique (s : Store) : Prop :=
  NoDup (map Transaction._id (transactions s)) /\
  NoDup (map BankAccount._id (bankAccounts s)) /\
  NoDup (map Debt._id (debts s)).

Definition accountNumbersUnique (s : Store) : Prop :=
  NoDup (map BankAccount.accountNumber (bankAccounts s)).

Definition succeeded (r : Response) : bool :=
  (statusCode r =? 200)%nat || (statusCode r =? 201)%nat.

(** The status codes each handler can send. *)
Definition statusCodes (r : Route) : list nat :=
  match r with
  | POST_transactions_expense => [200; 500]
  | POST_transactions_income => [200; 500]
  | POST_transactions_self_transfer => [200; 500]
  | GET_bank_accounts => [200; 500]
  | GET_bank_accounts_id _ => [200; 404; 500]
  | POST_bank_accounts => [201; 400; 500]
  | PATCH_bank_accounts_update_balance _ => [200; 400; 404; 500]
  | POST_debts => [201; 400; 500]
  | GET_debts => [200; 500]
  | GET_debts_id _ => [200; 404; 500]
  | PATCH_debts_update_status _ => [200; 400; 404; 500]
  | POST_debts_transactions _ => [201; 500]
  end%nat.

(** The ObjectId a request reference casts to, if it is present and casts. *)
Definition referenced (castObjectId : string -> option ObjectId) (x : option string)
  : option ObjectId :=
  match x with
  | Some text => castObjectId text
  | None => None
  end.

(** The accounts a posting names. *)
Definition namedAccounts (castObjectId : string -> option ObjectId) (r : Route)
  (req : Req.body) : list (option ObjectId) :=
  match r with
  | POST_transactions_expense => [referenced castObjectId (Req.sourceAccount req)]
  | POST_transactions_income => [referenced castObjectId (Req.destinationAccount req)]
  | POST_transactions_self_transfer =>
      [referenced castObjectId (Req.sourceAccount req);
       referenced castObjectId (Req.destinationAccount req)]
  | _ => []
  end.

Definition isPosting (r : Route) : bool :=
  match r with
  | POST_transactions_expense | POST_transactions_income
  | POST_transactions_self_transfer => true
  | _ => false
  end.

Definition isRead (r : Route) : bool :=
  match r with
  | GET_bank_accounts | GET_bank_accounts_id _ | GET_debts | GET_debts_id _ => true
  | _ => false
  end.

(** ** More sample requests *)

Definition env1 : Env := {| newId := 1001%N; now := 1700000001000 |}.

(** The text of the ObjectId that [env0] generates. *)
Definition idNew : string := "0000000000000000000003e8".

(** A complete debt-creation body; its pendingAmount is not
    totalAmount - settledAmount. *)
Definition lendFull : Req.body :=
  {| Req.description := Some "loan to a friend"; Req.amount := VUndefined;
     Req.category := None; Req.date := VUndefined; Req.type := Some "positive";
     Req.sourceAccount := None; Req.destinationAccount := None;
     Req.accountNumber := None; Req.newBalance := VUndefined;
     Req.totalAmount := VNumber 50%float;
     Req.settledAmount := VNumber 10%float; Req.pendingAmount := VNumber 70%float;
     Req.status := Some "pending"; Req.debtor := Some "Asha";
     Req.debtorAccount := None; Req.creditorAccount := None;
     Req.creditor := Some "me"; Req.isRecurring := None; Req.recurrence := None;
     Req.newStatus := None |}.

(** The same with a status the schema does not list. *)
Definition lendOpen : Req.body :=
  {| Req.description := Some "loan to a friend"; Req.amount := VUndefined;
     Req.category := None; Req.date := VUndefined; Req.type := Some "positive";
     Req.sourceAccount := None; Req.destinationAccount := None;
     Req.accountNumber := None; Req.newBalance := VUndefined;
     Req.totalAmount := VNumber 50%float;
     Req.settledAmount := VNumber 10%float; Req.pendingAmount := VNumber 70%float;
     Req.status := Some "open"; Req.debtor := Some "Asha";
     Req.debtorAccount := None; Req.creditorAccount := None;
     Req.creditor := Some "me"; Req.isRecurring := None; Req.recurrence := None;
     Req.newStatus := None |}.

Definition expenseRun : Store * Response :=
  router sampleRuntime env0 POST_transactions_expense (spend 40%float idA) store0.

Definition failedRun : Store * Response :=
  router sampleRuntime env0 POST_transactions_expense (spend 40%float idMissing) store0.

Definition debtRun : Store * Response :=
  router sampleRuntime env0 (POST_debts_transactions idDebtP) (repay 30%float) store0.

(** * Properties *)

Example sample_runtime_on_text :
  decimalToNumber "0" = 0%float /\ decimalToNumber "30" = 30%float /\
  integerToString 50%float = "50" /\ integerToString twoTo53 = "9007199254740992" /\
  is_nan (decimalToNumber "abc") = true /\
  timeStampToDate (VNumber 8640000000000001%float) = CastError /\
  timeStampToDate (VNumber 1700000000000%float) = Cast 1700000000000.
Proof. vm_compute. repeat split. Qed.
(** ** Collections *)

Section CollectionFacts.
Context {D : Type} (ident : D -> ObjectId).

Lemma findById_ident (k : ObjectId) (c : list D) (d : D) :
  findById ident k c = Some d -> ident d = k.
Proof.
  unfold findById. intros H. apply find_some in H.
  destruct H as [_ H]. now apply N.eqb_eq in H.
Qed.

Lemma findById_cons (k : ObjectId) (d : D) (r : list D) :
  findById ident k (d :: r)
  = if N.eqb (ident d) k then Some d else findById ident k r.
Proof. reflexivity. Qed.

Lemma findById_replaceOne_same (k : ObjectId) (d' : D) (c : list D) :
  ident d' = k ->
  findById ident k c <> None ->
  findById ident k (replaceOne ident k d' c) = Some d'.
Proof.
  intros Hid. induction c as [|d r IH]; intros H.
  - now elim H.
  - rewrite findById_cons in H. cbn [replaceOne].
    destruct (N.eqb (ident d) k) eqn:E; rewrite findById_cons.
    + now rewrite Hid, N.eqb_refl.
    + rewrite E. now apply IH.
Qed.

Lemma findById_replaceOne_other (j k : ObjectId) (d' : D) (c : list D) :
  ident d' = k -> j <> k ->
  findById ident j (replaceOne ident k d' c) = findById ident j c.
Proof.
  intros Hid Hjk. induction c as [|d r IH]; [reflexivity|].
  cbn [replaceOne]. destruct (N.eqb (ident d) k) eqn:E; rewrite !findById_cons.
  - apply N.eqb_eq in E. rewrite Hid, E.
    assert (N.eqb k j = false) as -> by (apply N.eqb_neq; congruence).
    reflexivity.
  - now rewrite IH.
Qed.

Lemma findById_replaceOne_absent (j k : ObjectId) (d' : D) (c : list D) :
  ident d' = k ->
  findById ident j c = None ->
  findById ident j (replaceOne ident k d' c) = None.
Proof.
  intros Hid H. destruct (N.eq_dec j k) as [->|Hjk].
  - clear Hid. induction c as [|d r IH]; [reflexivity|].
    rewrite findById_cons in H. cbn [replaceOne].
    destruct (N.eqb (ident d) k) eqn:E; [discriminate|].
    rewrite findById_cons, E. now apply IH.
  - now rewrite findById_replaceOne_other.
Qed.

(** Whatever a lookup finds after a replacement is the new document or was
    found before. *)
Lemma findById_replaceOne_inv (j k : ObjectId) (d' x : D) (c : list D) :
  ident d' = k ->
  findById ident j (replaceOne ident k d' c) = Some x ->
  x = d' \/ findById ident j c = Some x.
Proof.
  intros Hid H. destruct (N.eq_dec j k) as [->|Hjk].
  - destruct (findById ident k c) eqn:E.
    + rewrite findById_replaceOne_same in H by congruence. left. congruence.
    + rewrite findById_replaceOne_absent in H by assumption. discriminate.
  - rewrite findById_replaceOne_other in H by assumption. now right.
Qed.

Lemma findById_app_old (k : ObjectId) (c : list D) (d x : D) :
  findById ident k c = Some x -> findById ident k (c ++ [d]) = Some x.
Proof.
  induction c as [|y r IH]; [discriminate|].
  cbn [app]. rewrite !findById_cons. destruct (N.eqb (ident y) k); auto.
Qed.

Lemma insertOne_inv (d : D) (c c' : list D) :
  insertOne ident d c = Some c' ->
  findById ident (ident d) c = None /\ c' = c ++ [d].
Proof.
  unfold insertOne. destruct (findById ident (ident d) c); [discriminate|].
  intros [= <-]. auto.
Qed.

Lemma insertOne_fresh (d : D) (c : list D) :
  findById ident (ident d) c = None -> insertOne ident d c = Some (c ++ [d]).
Proof.
  unfold insertOne. now intros ->.
Qed.

Lemma forallb_replaceOne (f : D -> bool) (k : ObjectId) (d' : D) (c : list D) :
  forallb f c = true -> f d' = true -> forallb f (replaceOne ident k d' c) = true.
Proof.
  intros Hc Hd. induction c as [|d r IH]; [reflexivity|].
  cbn [forallb] in Hc. apply andb_true_iff in Hc. destruct Hc as [Hfd Hr].
  cbn [replaceOne]. destruct (N.eqb (ident d) k); cbn [forallb].
  - now rewrite Hd, Hr.
  - now rewrite Hfd, IH.
Qed.

Lemma forallb_insertOne (f : D -> bool) (d : D) (c c' : list D) :
  insertOne ident d c = Some c' ->
  forallb f c = true -> f d = true -> forallb f c' = true.
Proof.
  intros I Hc Hd. apply insertOne_inv in I. destruct I as [_ ->].
  rewrite forallb_app, Hc. cbn. now rewrite Hd.
Qed.

End CollectionFacts.

(** ** Truthiness and casts *)

Lemma truthyS_true (x : option string) :
  truthyS x = true <-> exists s, x = Some s /\ s <> EmptyString.
Proof.
  destruct x as [s|]; simpl.
  - rewrite negb_true_iff, String.eqb_neq. split.
    + intros H. exists s. auto.
    + intros (s' & [= <-] & H). exact H.
  - split; [discriminate|]. intros (s & H & _). discriminate.
Qed.

Lemma truthyS_Some (s : string) : s <> EmptyString -> truthyS (Some s) = true.
Proof. intros H. apply truthyS_true. eauto. Qed.

(** A number is truthy when it is neither a zero nor [NaN]. *)
Lemma truthyN_VNumber (n : float) :
  truthyN (VNumber n) = true <-> PrimFloat.eqb n 0 = false /\ is_nan n = false.
Proof.
  cbn [truthyN]. rewrite negb_true_iff, orb_false_iff. reflexivity.
Qed.

(** A number casts to itself, unless it is [NaN]. *)
Lemma castNumber_VNumber (rt : Runtime) (n : float) :
  is_nan n = false -> castNumber rt (VNumber n) = Cast n.
Proof. intros H. cbn [castNumber]. now rewrite H. Qed.

Lemma castNumber_VNumber_inv (rt : Runtime) (n x : float) :
  castNumber rt (VNumber n) = Cast x -> x = n /\ is_nan n = false.
Proof.
  cbn [castNumber]. destruct (is_nan n); [discriminate|]. intros [= <-]. auto.
Qed.

(** A truthy value never casts to nothing. *)
Lemma castNumber_truthy (rt : Runtime) (x : value) :
  truthyN x = true -> castNumber rt x <> NoValue.
Proof.
  destruct x as [| |b|n|s]; cbn [truthyN castNumber]; try discriminate.
  - destruct (is_nan n); discriminate.
  - intros H. apply negb_true_iff in H. rewrite H.
    destruct (is_nan _); discriminate.
Qed.

(** ** The handlers *)

Ltac unfold_ops :=
  unfold withTransaction, tryCatch, Transaction_save,
    BankAccount_create, Debt_create, BankAccount_findById, Debt_findById,
    BankAccount_find, Debt_find, BankAccount_findOne, BankAccount_setBalance_save,
    Debt_setStatus_save, Debt_setAmounts_save, Debt_write, respond,
    requiredNumber, lookupAccount, bind, ret, throw in *.

Ltac unfold_routes :=
  unfold post_transactions_expense, post_transactions_income,
    post_transactions_self_transfer, get_bank_accounts, get_bank_accounts_id,
    post_bank_accounts, patch_bank_accounts_update_balance, post_debts, get_debts,
    get_debts_id, patch_debts_update_status, post_debts_transactions.

Ltac break_match :=
  match goal with
  | |- context [match ?x with _ => _ end] =>
      match x with
      | context [match _ with _ => _ end] => fail 1
      | _ => destruct x eqn:?
      end
  end.

Section Properties.

Variable rt : Runtime.

(** What a saved Transaction looks like. *)
Lemma transactionSchema_inv (e : Env) (o : TransactionInit) (t : Transaction.t) :
  transactionSchema rt e o = Some t ->
  exists src dst dbt,
    castRef rt (ti_sourceAccount o) = Some src /\
    castRef rt (ti_destinationAccount o) = Some dst /\
    castRef rt (ti_debt o) = Some dbt /\
    ti_description o = Some (Transaction.description t) /\
    Transaction.description t <> EmptyString /\
    castNumber rt (ti_amount o) = Cast (Transaction.amount t) /\
    optionalDate rt (ti_date o) (Some (now e)) = Some (Transaction.date t) /\
    Transaction.category t = ti_category o /\
    Transaction.type t = orDefault (ti_type o) "expense" /\
    Transaction._id t = newId e /\
    Transaction.sourceAccount t = src /\
    Transaction.destinationAccount t = dst /\
    Transaction.debt t = dbt.
Proof.
  unfold transactionSchema, requiredNumber.
  destruct (ti_description o) as [d|]; [|discriminate].
  destruct (castNumber rt (ti_amount o)) as [|a|]; try discriminate.
  destruct (optionalDate rt (ti_date o) (Some (now e))) as [date|]; [|discriminate].
  destruct (String.eqb d EmptyString) eqn:Ed; [discriminate|].
  destruct (negb _); [discriminate|].
  destruct (castRef rt (ti_sourceAccount o)) as [src|]; [|discriminate].
  destruct (castRef rt (ti_destinationAccount o)) as [dst|]; [|discriminate].
  destruct (castRef rt (ti_debt o)) as [dbt|]; [|discriminate].
  intros [= <-]. exists src, dst, dbt. cbn.
  apply String.eqb_neq in Ed. repeat split; auto.
Qed.



(** A document that passed validation when it was created passes it when it
    is saved again. *)
Lemma bankAccountSchema_valid (e : Env) (n : option string) (b : float)
  (a : BankAccount.t) :
  bankAccountSchema e n b = Some a -> bankAccountSchema_validate a = true.
Proof.
  unfold bankAccountSchema, bankAccountSchema_validate.
  destruct n as [n|]; [|discriminate].
  destruct (String.eqb n EmptyString) eqn:E; [discriminate|].
  intros [= <-]. cbn. now rewrite E.
Qed.

Lemma debtSchema_valid (e : Env) (o : DebtInit) (d : Debt.t) :
  debtSchema rt e o = Some d -> debtSchema_validate d = true.
Proof.
  unfold debtSchema, debtSchema_validate.
  destruct (di_description o) as [description|]; [|discriminate].
  destruct (requiredNumber rt (di_totalAmount o)),
    (requiredNumber rt (di_settledAmount o)),
    (requiredNumber rt (di_pendingAmount o));
    try discriminate.
  destruct (String.eqb description EmptyString) eqn:Ed; [discriminate|].
  destruct (includes ["pending"; "settled"] _) eqn:Es; [|discriminate].
  destruct (includes ["negative"; "positive"] _) eqn:Et; [|discriminate].
  cbn [negb].
  destruct (castRef _ (di_debtorAccount o)); [|discriminate].
  destruct (castRef _ (di_creditorAccount o)); [|discriminate].
  destruct (recurrenceSchema rt (di_recurrence o)) as [rc|] eqn:Er; [|discriminate].
  intros [= <-].
  cbn [Debt.description Debt.status Debt.type Debt.recurrence].
  rewrite Ed, Es, Et. cbn [negb andb].
  unfold recurrenceSchema in Er. destruct (di_recurrence o) as [ri|].
  - destruct (ri_frequency ri) as [fq|].
    + destruct (includes _ fq) eqn:Ei; [|discriminate].
      cbn [negb] in Er.
      destruct (optionalNumber _ _ _); [|discriminate].
      destruct (optionalDate _ _ _); [|discriminate].
      injection Er as <-. exact Ei.
    + destruct (optionalNumber _ _ _); [|discriminate].
      destruct (optionalDate _ _ _); [|discriminate].
      injection Er as <-. reflexivity.
  - injection Er as <-. reflexivity.
Qed.

(** C1. An expense, income or self-transfer request that references an
    account absent from the store (no reference, a text that is no ObjectId,
    or an ObjectId no account has) is answered with the internal-error
    response and the store after the request is the store before it: no
    Transaction is kept and no balance differs. *)
Theorem missing_account_leaves_store_unchanged (e : Env) (req : Req.body) (s : Store) :
  (lookupAccount (castObjectId rt) (Req.sourceAccount req) s = None ->
   post_transactions_expense rt e req s = (s, InternalServerError)) /\
  (lookupAccount (castObjectId rt) (Req.destinationAccount req) s = None ->
   post_transactions_income rt e req s = (s, InternalServerError)) /\
  (lookupAccount (castObjectId rt) (Req.sourceAccount req) s = None \/
   lookupAccount (castObjectId rt) (Req.destinationAccount req) s = None ->
   post_transactions_self_transfer rt e req s = (s, InternalServerError)).
Proof.
  split; [|split].
  - intros H. unfold post_transactions_expense. unfold_ops.
    repeat (break_match; simpl in *; try congruence).
  - intros H. unfold post_transactions_income. unfold_ops.
    repeat (break_match; simpl in *; try congruence).
  - intros H. unfold post_transactions_self_transfer. unfold_ops.
    repeat (break_match; simpl in *; try congruence).
    destruct H as [H|H]; [discriminate|].
    match goal with
    | F : findById _ _ (replaceOne _ _ _ _) = Some _ |- _ =>
        rewrite findById_replaceOne_absent in F by auto; discriminate
    end.
Qed.





Ltac split_check :=
  repeat match goal with
    | H : (_ || _)%bool = false |- _ => apply orb_false_iff in H; destruct H
    | H : negb _ = false |- _ => apply negb_false_iff in H
    end.

(** A request adds at most one Transaction, and one it adds has the Number
    cast of an amount that passed the handler's [!amount] test. *)
Lemma router_transactions (e : Env) (r : Route) (req : Req.body) (s : Store) :
  transactions (fst (router rt e r req s)) = transactions s \/
  exists t,
    transactions (fst (router rt e r req s)) = transactions s ++ [t] /\
    truthyN (Req.amount req) = true /\
    castNumber rt (Req.amount req) = Cast (Transaction.amount t).
Proof.
  destruct r; cbn [router]; unfold_routes; unfold_ops;
    repeat (break_match; cbn [fst snd transactions] in *; try congruence);
    try (left; reflexivity).
  all: right; split_check.
  all: match goal with
       | I : insertOne _ ?t _ = Some _, V : transactionSchema _ _ _ = Some ?t |- _ =>
           apply insertOne_inv in I; destruct I as [_ ->];
           apply transactionSchema_inv in V; cbn in V;
           destruct V as (_ & _ & _ & _ & _ & _ & _ & _ & V & _);
           exists t; split; [reflexivity|]
       end.
  all: auto.
Qed.

(** What casts to a Number path is a number. *)
Lemma castNumber_not_nan (x : value) (n : float) :
  castNumber rt x = Cast n -> is_nan n = false.
Proof.
  destruct x as [| |b|m|text]; cbn [castNumber]; try discriminate.
  - intros [= <-]. now destruct b.
  - destruct (is_nan m) eqn:E; [discriminate|]. now intros [= <-].
  - destruct (text =? EmptyString)%string; [discriminate|].
    destruct (is_nan (stringToNumber rt text)) eqn:E; [discriminate|]. now intros [= <-].
Qed.

(** C5 (as the code has it). A Transaction that a request adds to the store,
    whichever of the routes handled the request, holds the Number cast of an
    amount that was sent truthy.  An amount sent as a number is stored as it
    is and is neither zero nor NaN, of either sign; an amount sent as a text
    is stored as the number the text converts to, which may be zero. *)
Theorem persisted_transaction_amount_is_the_cast_of_a_truthy_amount
  (e : Env) (r : Route) (req : Req.body) (s s' : Store) (resp : Response)
  (t : Transaction.t) :
  router rt e r req s = (s', resp) ->
  In t (transactions s') -> ~ In t (transactions s) ->
  truthyN (Req.amount req) = true /\
  castNumber rt (Req.amount req) = Cast (Transaction.amount t) /\
  is_nan (Transaction.amount t) = false /\
  (forall a, Req.amount req = VNumber a ->
             Transaction.amount t = a /\ PrimFloat.eqb a 0 = false) /\
  (forall text, Req.amount req = VString text ->
                Transaction.amount t = stringToNumber rt text).
Proof.
  intros Hrun Hin Hnew.
  pose proof (router_transactions e r req s) as H. rewrite Hrun in H. cbn [fst] in H.
  destruct H as [H|(t0 & H & Htruthy & Hcast)]; rewrite H in Hin.
  - contradiction.
  - apply in_app_or in Hin. destruct Hin as [Hin|[<-|[]]]; [contradiction|].
    split; [exact Htruthy|]. split; [exact Hcast|].
    split; [exact (castNumber_not_nan _ _ Hcast)|]. split.
    + intros a Ha. rewrite Ha in Hcast, Htruthy. split.
      * now apply castNumber_VNumber_inv in Hcast.
      * now apply truthyN_VNumber in Htruthy.
    + intros text Ha. rewrite Ha in Hcast. cbn [castNumber] in Hcast.
      destruct (text =? EmptyString)%string; [discriminate|].
      destruct (is_nan _); [discriminate|]. now injection Hcast as <-.
Qed.

Lemma replaceOne_keeps_status (k0 : ObjectId) (d0 d0' : Debt.t) (c : list Debt.t) :
  findById Debt._id k0 c = Some d0 ->
  Debt._id d0' = k0 -> Debt.status d0' = Debt.status d0 ->
  forall k d,
    findById Debt._id k c = Some d ->
    exists d', findById Debt._id k (replaceOne Debt._id k0 d0' c) = Some d' /\
               Debt.status d' = Debt.status d.
Proof.
  intros F0 Hid Hst k d F. destruct (N.eq_dec k k0) as [->|Hne].
  - exists d0'. rewrite findById_replaceOne_same by congruence.
    split; [reflexivity|congruence].
  - exists d. rewrite findById_replaceOne_other by assumption. auto.
Qed.

(** Every route but update-status keeps each stored debt, with its status. *)
Lemma router_debts (e : Env) (r : Route) (req : Req.body) (s : Store)
  (k : ObjectId) (d : Debt.t) :
  (forall debtId, r <> PATCH_debts_update_status debtId) ->
  findById Debt._id k (debts s) = Some d ->
  exists d',
    findById Debt._id k (debts (fst (router rt e r req s))) = Some d' /\
    Debt.status d' = Debt.status d.
Proof.
  intros Hr F.
  destruct r; try (now elim (Hr debtId)); cbn [router];
    unfold post_transactions_expense, post_transactions_income,
      post_transactions_self_transfer, get_bank_accounts, get_bank_accounts_id,
      post_bank_accounts, patch_bank_accounts_update_balance, post_debts, get_debts,
      get_debts_id, post_debts_transactions;
    unfold_ops;
    repeat (break_match; cbn [fst snd transactions bankAccounts debts] in *;
            try congruence);
    try (exists d; split; [exact F|reflexivity]).
  - match goal with
    | I : insertOne _ _ _ = Some _ |- _ => apply insertOne_inv in I; destruct I as [_ ->]
    end.
    exists d. split; [now apply findById_app_old|reflexivity].
  - match goal with
    | G : findById Debt._id ?k0 (debts s) = Some ?d0 |- _ =>
        pose proof (findById_ident _ _ _ _ G) as Hi;
        cbn [Debt_with Debt._id]; rewrite Hi;
        apply (replaceOne_keeps_status k0 d0); auto
    end.
  - match goal with
    | G : findById Debt._id ?k0 (debts s) = Some ?d0 |- _ =>
        pose proof (findById_ident _ _ _ _ G) as Hi;
        cbn [Debt_with Debt._id]; rewrite Hi;
        apply (replaceOne_keeps_status k0 d0); auto
    end.
Qed.

(** X11. The routes keep the store valid. *)
Lemma router_storeValid (e : Env) (r : Route) (req : Req.body) (s : Store) :
  storeValid s = true -> storeValid (fst (router rt e r req s)) = true.
Proof.
  unfold storeValid. intros H. apply andb_true_iff in H. destruct H as [Ha Hd].
  destruct r; cbn [router];
    unfold post_transactions_expense, post_transactions_income,
      post_transactions_self_transfer, get_bank_accounts, get_bank_accounts_id,
      post_bank_accounts, patch_bank_accounts_update_balance, post_debts, get_debts,
      get_debts_id, patch_debts_update_status, post_debts_transactions;
    unfold_ops;
    repeat (break_match; cbn [fst snd transactions bankAccounts debts] in *;
            try congruence);
    try (now rewrite Ha, Hd);
    apply andb_true_iff; split;
    repeat match goal with
      | |- forallb _ (replaceOne _ _ _ _) = true => apply forallb_replaceOne
      | I : insertOne _ _ ?c = Some ?c' |- forallb _ ?c' = true =>
          apply (forallb_insertOne _ _ _ _ _ I)
      | V : bankAccountSchema _ _ _ = Some ?a |- bankAccountSchema_validate ?a = true =>
          exact (bankAccountSchema_valid _ _ _ _ V)
      | V : debtSchema _ _ _ = Some ?d |- debtSchema_validate ?d = true =>
          exact (debtSchema_valid _ _ _ V)
      | |- _ => assumption
      end.
Qed.

(** C8. A request handled by any route other than update-status leaves the
    status of every stored debt as it was; a debt transaction does so
    whatever it makes of [pendingAmount]. *)
Theorem only_update_status_changes_a_debt_status
  (e : Env) (r : Route) (req : Req.body) (s s' : Store) (resp : Response)
  (k : ObjectId) (d : Debt.t) :
  (forall debtId, r <> PATCH_debts_update_status debtId) ->
  router rt e r req s = (s', resp) ->
  findById Debt._id k (debts s) = Some d ->
  exists d', findById Debt._id k (debts s') = Some d' /\
             Debt.status d' = Debt.status d.
Proof.
  intros Hr Hrun F.
  pose proof (router_debts e r req s k d Hr F) as H.
  now rewrite Hrun in H.
Qed.


(** C6. A creation request whose accountNumber is that of a stored account is
    rejected with status 400, reporting the duplicate, and the store is left
    as it was; a request with a fresh accountNumber creates an account with
    balance 0; and no request makes this route store an account with any
    other balance. *)
Theorem account_number_is_unique_and_balance_starts_at_zero
  (e : Env) (req : Req.body) (s : Store) (n : string) :
  Req.accountNumber req = Some n ->
  ((exists a, In a (bankAccounts s) /\ BankAccount.accountNumber a = n) ->
   fst (post_bank_accounts e req s) = s /\
   statusCode (snd (post_bank_accounts e req s)) = 400%nat /\
   (n <> EmptyString ->
    json (snd (post_bank_accounts e req s))
    = JError "Account with the same account number already exists.")) /\
  ((forall a, In a (bankAccounts s) -> BankAccount.accountNumber a <> n) ->
   n <> EmptyString ->
   findById BankAccount._id (newId e) (bankAccounts s) = None ->
   let created := {| BankAccount._id := newId e; BankAccount.accountNumber := n;
                     BankAccount.balance := 0%float |} in
   post_bank_accounts e req s
   = ({| transactions := transactions s;
         bankAccounts := bankAccounts s ++ [created];
         debts := debts s |},
      respond 201 (JBankAccount "Bank account created successfully" created))) /\
  (forall a, In a (bankAccounts (fst (post_bank_accounts e req s))) ->
             In a (bankAccounts s) \/ BankAccount.balance a = 0%float).
Proof.
  intros Hn. unfold post_bank_accounts, tryCatch, bind, ret, BankAccount_findOne.
  rewrite Hn. cbn [truthyS].
  destruct (String.eqb_spec n EmptyString) as [->|Hne]; cbn [negb].
  - split; [|split].
    + intros _. cbn. repeat split. intros H. now elim H.
    + intros _ H. now elim H.
    + cbn. auto.
  - destruct (find (fun a => (BankAccount.accountNumber a =? n)%string) (bankAccounts s))
      as [a0|] eqn:Ffind.
    + split; [|split].
      * intros _. cbn. auto.
      * intros Hfresh _ _. apply find_some in Ffind. destruct Ffind as [Hin Heq].
        apply String.eqb_eq in Heq. now elim (Hfresh a0).
      * cbn. auto.
    + split; [|split].
      * intros (a & Hin & Ha).
        pose proof (find_none _ _ Ffind a Hin) as Hf. cbn in Hf.
        apply String.eqb_neq in Hf. contradiction.
      * intros _ _ Hid. unfold BankAccount_create, bankAccountSchema.
        apply String.eqb_neq in Hne. rewrite Hne.
        rewrite insertOne_fresh by exact Hid. reflexivity.
      * unfold BankAccount_create, bankAccountSchema.
        apply String.eqb_neq in Hne. rewrite Hne.
        destruct (insertOne _ _ _) as [c|] eqn:I; cbn; auto.
        apply insertOne_inv in I. destruct I as [_ ->].
        intros a Hin. apply in_app_or in Hin. destruct Hin as [Hin|[<-|[]]]; auto.
Qed.

(** C7. An update-status request whose newStatus is neither pending nor
    settled (or is absent) is answered 400 and the store, so the status of
    the debt too, is left as it was; with newStatus pending or settled and a
    debt that exists (and satisfies its schema), the stored status of that
    debt becomes newStatus. *)
Theorem update_status_accepts_only_pending_and_settled
  (debtId : string) (req : Req.body) (s : Store) (k : ObjectId) (d : Debt.t) :
  castObjectId rt debtId = Some k ->
  findById Debt._id k (debts s) = Some d ->
  debtSchema_validate d = true ->
  (Req.newStatus req <> Some "pending" -> Req.newStatus req <> Some "settled" ->
   patch_debts_update_status rt debtId req s
   = (s, respond 400 (JError "Invalid status provided."))) /\
  (Req.newStatus req = Some "pending" \/ Req.newStatus req = Some "settled" ->
   exists s' d',
     patch_debts_update_status rt debtId req s
     = (s', respond 200 (JDebt "Debt status updated successfully" d')) /\
     findById Debt._id k (debts s') = Some d' /\
     Some (Debt.status d') = Req.newStatus req).
Proof.
  intros Hk F Hvalid. pose proof (findById_ident _ _ _ _ F) as Hid.
  assert (Hsave : forall v, includes ["pending"; "settled"] v = true ->
                         debtSchema_validate
                           (Debt_with d (Debt.totalAmount d) (Debt.pendingAmount d) v)
                         = true).
  { intros v Hin. unfold debtSchema_validate in *. cbn [Debt_with Debt.description
      Debt.status Debt.type Debt.recurrence]. rewrite Hin.
    apply andb_true_iff in Hvalid. destruct Hvalid as [Hvalid ->].
    apply andb_true_iff in Hvalid. destruct Hvalid as [Hvalid ->].
    apply andb_true_iff in Hvalid. destruct Hvalid as [-> _]. reflexivity. }
  unfold patch_debts_update_status, tryCatch, bind, ret. split.
  - intros Hp Hs. destruct (Req.newStatus req) as [v|]; [|reflexivity].
    cbn [truthyS includes existsb].
    destruct (String.eqb_spec v "pending") as [->|_]; [now elim Hp|].
    destruct (String.eqb_spec v "settled") as [->|_]; [now elim Hs|].
    cbn [orb negb]. now rewrite orb_true_r.
  - intros [Hv|Hv]; rewrite Hv; cbn [truthyS includes existsb String.eqb Ascii.eqb
                                      Bool.eqb orb negb];
      unfold Debt_findById; rewrite Hk, F;
      unfold Debt_setStatus_save, Debt_write; rewrite Hsave by reflexivity;
      cbn [Debt_with Debt._id debts];
      eexists _, _; (split; [reflexivity|]); cbn [debts]; rewrite Hid;
      rewrite findById_replaceOne_same by (auto; congruence); auto.
Qed.

(** C9 (as the code has it). An update-balance request with the number 0
    as newBalance is answered 400 and the store is left as it was; and an
    account whose balance is 0 after an update-balance request either was
    stored so before it, or the request sent as newBalance a non-empty text
    that converts to 0.  No number sets a balance to 0 through this route,
    a text such as ["0"] does. *)
Theorem update_balance_sets_zero_only_from_text
  (accountId : string) (req : Req.body) (s s' : Store) (r : Response) :
  patch_bank_accounts_update_balance rt accountId req s = (s', r) ->
  (forall n, Req.newBalance req = VNumber n -> PrimFloat.eqb n 0 = true ->
   s' = s /\ r = respond 400 (JError "New balance must be a valid number.")) /\
  (forall k a,
      findById BankAccount._id k (bankAccounts s') = Some a ->
      PrimFloat.eqb (BankAccount.balance a) 0 = true ->
      findById BankAccount._id k (bankAccounts s) = Some a \/
      exists text,
        Req.newBalance req = VString text /\ text <> EmptyString /\
        BankAccount.balance a = stringToNumber rt text).
Proof.
  unfold patch_bank_accounts_update_balance, tryCatch, bind, ret.
  destruct (negb (truthyN (Req.newBalance req)) || isNaN rt (Req.newBalance req))
    eqn:Hcheck.
  { intros [= <- <-]. split; auto. }
  apply orb_false_iff in Hcheck. destruct Hcheck as [Htruthy Hnan].
  apply negb_false_iff in Htruthy.
  intros H. split.
  { intros n Hn Hz. rewrite Hn in Htruthy. cbn [truthyN] in Htruthy.
    rewrite Hz in Htruthy. discriminate. }
  revert H. unfold BankAccount_findById.
  destruct (castObjectId rt accountId) as [ka|]; [|intros [= <- _]; auto].
  destruct (findById BankAccount._id ka (bankAccounts s)) as [acc|] eqn:F;
    [|intros [= <- _]; auto].
  unfold BankAccount_setBalance_save.
  destruct (castNumber rt (Req.newBalance req)) as [|b|] eqn:Hcast;
    try (intros [= <- _]; auto).
  destruct (bankAccountSchema_validate _); [|intros [= <- _]; auto].
  intros [= <- _].
  cbn [bankAccounts]. intros k a Fa Ha.
  apply findById_replaceOne_inv in Fa; [|reflexivity].
  destruct Fa as [->|Fa]; [|left; exact Fa]. cbn [BankAccount.balance] in Ha.
  right. destruct (Req.newBalance req) as [| |v|n|text]; cbn [castNumber truthyN] in *;
    try discriminate.
  - subst v. injection Hcast as <-. vm_compute in Ha. discriminate.
  - destruct (is_nan n); [discriminate|]. injection Hcast as <-.
    rewrite Ha in Htruthy. discriminate.
  - exists text. apply negb_true_iff in Htruthy. rewrite Htruthy in Hcast.
    destruct (is_nan _); [discriminate|]. injection Hcast as <-.
    apply String.eqb_neq in Htruthy. auto.
Qed.

(** C10. A debt-creation request that passes the handler's field check but
    omits settledAmount or pendingAmount is not answered 400: the save fails
    validation, the answer is the 500 response and no Debt is stored. *)
Theorem debt_without_settled_or_pending_amount_fails_on_save
  (e : Env) (req : Req.body) (s : Store) :
  truthyS (Req.description req) = true ->
  truthyN (Req.totalAmount req) = true ->
  truthyS (Req.status req) = true ->
  truthyS (Req.type req) = true ->
  (truthyS (Req.debtor req) || truthyS (Req.debtorAccount req))%bool = true ->
  (truthyS (Req.creditor req) || truthyS (Req.creditorAccount req))%bool = true ->
  Req.settledAmount req = VUndefined \/ Req.pendingAmount req = VUndefined ->
  post_debts rt e req s = (s, InternalServerError) /\
  statusCode InternalServerError = 500%nat.
Proof.
  intros Hd Ht Hs Hty Hdeb Hcred Hmiss.
  unfold post_debts, tryCatch, bind, ret.
  rewrite Hd, Ht, Hs, Hty, Hdeb, Hcred. cbn [negb orb].
  unfold Debt_create, debtSchema, requiredNumber.
  cbn [di_description di_totalAmount di_settledAmount di_pendingAmount].
  destruct (Req.description req); [|discriminate].
  destruct (castNumber rt (Req.totalAmount req)); auto.
  destruct Hmiss as [-> | ->]; [auto|].
  destruct (castNumber rt (Req.settledAmount req)); auto.
Qed.

End Properties.
(** The scenario of the specification: income 100, expense 40, transfer 20. *)
Example scenario :
  let a := {| BankAccount._id := keyOf idA; BankAccount.accountNumber := "A001";
              BankAccount.balance := 0%float |} in
  let s0 := {| transactions := []; bankAccounts := [a; accountB]; debts := [] |} in
  let s1 := fst (post_transactions_income sampleRuntime {| newId := 1%N; now := 0 |}
                   (earn 100%float idA) s0) in
  let s2 := fst (post_transactions_expense sampleRuntime {| newId := 2%N; now := 0 |}
                   (spend 40%float idA) s1) in
  let s3 := fst (post_transactions_self_transfer sampleRuntime {| newId := 3%N; now := 0 |}
                   (transfer 20%float idA idB) s2) in
  balanceOf (keyOf idA) s1 = Some 100%float /\
  balanceOf (keyOf idA) s2 = Some 60%float /\ List.length (transactions s2) = 2%nat /\
  balanceOf (keyOf idA) s3 = Some 40%float /\ balanceOf (keyOf idB) s3 = Some 20%float.
Proof. vm_compute. repeat split. Qed.

(** [transactionSchema] requires a description, so a self-transfer posted
    without one is aborted although the handler does not ask for it. *)
Example self_transfer_without_description :
  post_transactions_self_transfer sampleRuntime env0
    (to idB (from idA (Req.empty_with_amount (VNumber 20%float)))) store0
  = (store0, InternalServerError).
Proof. vm_compute. reflexivity. Qed.

(** A debt transaction that brings [pendingAmount] to 0 leaves the debt
    pending. *)
Example pending_amount_zero_keeps_status :
  option_map (fun d => (Debt.pendingAmount d, Debt.status d))
    (findById Debt._id (keyOf idDebtP)
       (debts (fst (post_debts_transactions sampleRuntime env0 idDebtP
                      (repay (-50)%float) store0))))
  = Some (0%float, "pending").
Proof. vm_compute. reflexivity. Qed.

(** Against the negative debt the account named by [creditor] is debited. *)
Example negative_debt_debits_the_creditor :
  balanceOf (keyOf idB)
    (fst (post_debts_transactions sampleRuntime env0 idDebtN (repay 30%float) store0))
  = Some (-30)%float.
Proof. vm_compute. reflexivity. Qed.

(** An amount sent as the text ["30"] is taken off a balance as the number
    30 and put on a balance as text: an income of ["30"] turns 100 into
    10030, and the Transaction records 30. *)
Example text_amount_is_subtracted_but_concatenated :
  balanceOf (keyOf idA)
    (fst (post_transactions_expense sampleRuntime env0
            (from idA (withAmount (VString "30") "food")) store0))
  = Some 70%float /\
  balanceOf (keyOf idA)
    (fst (post_transactions_income sampleRuntime env0 (earnText "30" idA) store0))
  = Some 10030%float /\
  map Transaction.amount
    (transactions
       (fst (post_transactions_income sampleRuntime env0 (earnText "30" idA) store0)))
  = [30%float].
Proof. vm_compute. repeat split. Qed.

(** An amount sent as the text ["0"] passes the [!amount] test and is stored
    as the number 0. *)
Example text_amount_zero_is_stored :
  statusCode (snd (post_transactions_income sampleRuntime env0 (earnText "0" idB) store0))
  = 200%nat /\
  map Transaction.amount
    (transactions
       (fst (post_transactions_income sampleRuntime env0 (earnText "0" idB) store0)))
  = [0%float].
Proof. vm_compute. split; reflexivity. Qed.

Lemma missing_account_leaves_store_unchanged_witness :
  lookupAccount hexObjectId (Req.destinationAccount (transfer 20%float idA idMissing))
    store0
  = None /\
  post_transactions_self_transfer sampleRuntime env0 (transfer 20%float idA idMissing)
    store0
  = (store0, InternalServerError).
Proof.
  split; [reflexivity|].
  apply (missing_account_leaves_store_unchanged sampleRuntime env0
           (transfer 20%float idA idMissing) store0).
  right. reflexivity.
Defined.







(** C5, as stated, fails: an expense of -5 on account A is answered 200, the
    stored Transaction has amount -5, and the balance of A goes up from 100 to
    105. *)
Lemma negative_amount_is_stored_and_raises_the_balance :
  let run := post_transactions_expense sampleRuntime env0 (spend (-5)%float idA) store0 in
  statusCode (snd run) = 200%nat /\
  transactions store0 = [] /\
  map Transaction.type (transactions (fst run)) = ["expense"] /\
  map Transaction.amount (transactions (fst run)) = [(-5)%float] /\
  ~ (forall t, In t (transactions (fst run)) ->
               PrimFloat.ltb 0 (Transaction.amount t) = true) /\
  balanceOf (keyOf idA) store0 = Some 100%float /\
  balanceOf (keyOf idA) (fst run) = Some 105%float.
Proof.
  cbv zeta. repeat split; try (vm_compute; reflexivity).
  intros H.
  assert (Hin : exists t, In t (transactions
                              (fst (post_transactions_expense sampleRuntime env0
                                      (spend (-5)%float idA) store0))) /\
                          Transaction.amount t = (-5)%float).
  { eexists. split; [left; reflexivity|reflexivity]. }
  destruct Hin as (t & Hin & Ht). specialize (H t Hin). rewrite Ht in H.
  vm_compute in H. discriminate.
Qed.

Lemma persisted_transaction_amount_is_the_cast_of_a_truthy_amount_witness :
  exists t,
    In t (transactions (fst (router sampleRuntime env0 POST_transactions_income
                               (earn 100%float idA) store0))) /\
    Transaction.amount t = 100%float /\ PrimFloat.eqb 100 0 = false.
Proof.
  eexists. split; [left; reflexivity|].
  apply (persisted_transaction_amount_is_the_cast_of_a_truthy_amount sampleRuntime env0
           POST_transactions_income (earn 100%float idA) store0 _ _ _ eq_refl).
  - left. reflexivity.
  - intros [].
  - reflexivity.
Defined.

Lemma account_number_is_unique_and_balance_starts_at_zero_witness :
  In accountA (bankAccounts store0) /\
  fst (post_bank_accounts env0 (openAccount "A001") store0) = store0 /\
  statusCode (snd (post_bank_accounts env0 (openAccount "A001") store0)) = 400%nat.
Proof.
  split; [left; reflexivity|].
  destruct (account_number_is_unique_and_balance_starts_at_zero env0
              (openAccount "A001") store0 "A001" eq_refl) as [H _].
  destruct H as (H1 & H2 & _).
  - exists accountA. split; [left; reflexivity|reflexivity].
  - split; assumption.
Defined.

Lemma update_status_accepts_only_pending_and_settled_witness :
  findById Debt._id (keyOf idDebtP) (debts store0) = Some debtP /\
  patch_debts_update_status sampleRuntime idDebtP (setStatus "paid") store0
  = (store0, respond 400 (JError "Invalid status provided.")) /\
  exists s' d',
    patch_debts_update_status sampleRuntime idDebtP (setStatus "settled") store0
    = (s', respond 200 (JDebt "Debt status updated successfully" d')) /\
    findById Debt._id (keyOf idDebtP) (debts s') = Some d' /\
    Some (Debt.status d') = Some "settled".
Proof.
  split; [reflexivity|]. split.
  - apply (update_status_accepts_only_pending_and_settled sampleRuntime idDebtP
             (setStatus "paid") store0 (keyOf idDebtP) debtP eq_refl eq_refl eq_refl);
      discriminate.
  - apply (update_status_accepts_only_pending_and_settled sampleRuntime idDebtP
             (setStatus "settled") store0 (keyOf idDebtP) debtP eq_refl eq_refl eq_refl).
    right. reflexivity.
Defined.

Lemma only_update_status_changes_a_debt_status_witness :
  PrimFloat.eqb (Debt.pendingAmount debtP) 0 = false /\
  exists d',
    findById Debt._id (keyOf idDebtP)
      (debts (fst (router sampleRuntime env0 (POST_debts_transactions idDebtP)
                     (repay (-50)%float) store0)))
    = Some d' /\
    Debt.status d' = Debt.status debtP.
Proof.
  split; [reflexivity|].
  apply (only_update_status_changes_a_debt_status sampleRuntime env0
           (POST_debts_transactions idDebtP) (repay (-50)%float) store0 _
           (snd (router sampleRuntime env0 (POST_debts_transactions idDebtP)
                   (repay (-50)%float) store0))
           (keyOf idDebtP) debtP).
  - discriminate.
  - reflexivity.
  - reflexivity.
Defined.

(** C9, as stated, fails in its last clause: an update-balance request with
    the text ["0"] as newBalance is answered 200 and sets the balance of
    account A, which was 100, to 0. *)
Lemma text_zero_sets_the_balance_to_zero :
  let run := patch_bank_accounts_update_balance sampleRuntime idA
               (setBalance (VString "0")) store0 in
  statusCode (snd run) = 200%nat /\
  balanceOf (keyOf idA) store0 = Some 100%float /\
  balanceOf (keyOf idA) (fst run) = Some 0%float.
Proof. vm_compute. repeat split. Qed.

Lemma update_balance_sets_zero_only_from_text_witness :
  Req.newBalance (setBalance (VNumber 0%float)) = VNumber 0%float /\
  fst (patch_bank_accounts_update_balance sampleRuntime idA
         (setBalance (VNumber 0%float)) store0) = store0 /\
  snd (patch_bank_accounts_update_balance sampleRuntime idA
         (setBalance (VNumber 0%float)) store0)
  = respond 400 (JError "New balance must be a valid number.").
Proof.
  split; [reflexivity|].
  apply (proj1 (update_balance_sets_zero_only_from_text sampleRuntime idA
                  (setBalance (VNumber 0%float)) store0
                  (fst (patch_bank_accounts_update_balance sampleRuntime idA
                          (setBalance (VNumber 0%float)) store0))
                  (snd (patch_bank_accounts_update_balance sampleRuntime idA
                          (setBalance (VNumber 0%float)) store0))
                  eq_refl) 0%float eq_refl eq_refl).
Defined.

Lemma debt_without_settled_or_pending_amount_fails_on_save_witness :
  Req.settledAmount lend = VUndefined /\
  post_debts sampleRuntime env0 lend store0 = (store0, InternalServerError) /\
  statusCode InternalServerError = 500%nat.
Proof.
  split; [reflexivity|].
  apply (debt_without_settled_or_pending_amount_fails_on_save sampleRuntime env0 lend
           store0); try reflexivity.
  left. reflexivity.
Defined.
(** * Further properties of the routes *)

(** ** Collections under replacement and insertion *)

Lemma NoDup_snoc {A : Type} (l : list A) (x : A) :
  NoDup l -> ~ In x l -> NoDup (l ++ [x]).
Proof.
  induction l as [|y l IH]; intros Hl Hx; cbn.
  - constructor; [intros []|constructor].
  - inversion Hl as [|? ? Hy Hl']; subst. constructor.
    + intros Hin. apply in_app_or in Hin. destruct Hin as [Hin|[->|[]]].
      * contradiction.
      * apply Hx. now left.
    + apply IH; [assumption|]. intros Hin. apply Hx. now right.
Qed.

Section EvolutionFacts.
Context {D : Type} (ident : D -> ObjectId).

Lemma map_ident_replaceOne (k : ObjectId) (d' : D) (c : list D) :
  ident d' = k ->
  map ident (replaceOne ident k d' c) = map ident c.
Proof.
  intros Hid. induction c as [|d r IH]; [reflexivity|].
  cbn [replaceOne]. destruct (N.eqb (ident d) k) eqn:E; cbn [map].
  - apply N.eqb_eq in E. congruence.
  - now rewrite IH.
Qed.

Lemma findById_None_not_In (k : ObjectId) (c : list D) :
  findById ident k c = None -> ~ In k (map ident c).
Proof.
  intros H Hin. apply in_map_iff in Hin. destruct Hin as (d & Hd & Hin).
  unfold findById in H. pose proof (find_none _ _ H d Hin) as Hf. cbn in Hf.
  rewrite Hd, N.eqb_refl in Hf. discriminate.
Qed.

Lemma map_replaceOne_same {K : Type} (f : D -> K) (k : ObjectId) (d d' : D) (c : list D) :
  findById ident k c = Some d -> f d' = f d ->
  map f (replaceOne ident k d' c) = map f c.
Proof.
  intros F Hf. induction c as [|x r IH]; [discriminate|].
  rewrite findById_cons in F. cbn [replaceOne].
  destruct (N.eqb (ident x) k); cbn [map].
  - injection F as ->. now rewrite Hf.
  - now rewrite IH.
Qed.

Lemma replaceOne_found (k : ObjectId) (d : D) (c : list D) :
  findById ident k c = Some d -> replaceOne ident k d c = c.
Proof.
  induction c as [|x r IH]; [discriminate|].
  rewrite findById_cons. cbn [replaceOne].
  destruct (N.eqb (ident x) k); [now intros [= ->]|].
  intros F. now rewrite IH.
Qed.

Lemma replaceOne_twice (k : ObjectId) (d1 d2 : D) (c : list D) :
  ident d1 = k ->
  replaceOne ident k d2 (replaceOne ident k d1 c) = replaceOne ident k d2 c.
Proof.
  intros Hid. induction c as [|x r IH]; [reflexivity|].
  cbn [replaceOne]. destruct (N.eqb (ident x) k) eqn:E; cbn [replaceOne].
  - now rewrite Hid, N.eqb_refl.
  - now rewrite E, IH.
Qed.

Variable keeps : D -> D -> Prop.
Variable admits : list D -> D -> Prop.

Lemma evolves_ids_unique (c c' : list D) :
  evolves ident keeps admits c c' ->
  NoDup (map ident c) -> NoDup (map ident c').
Proof.
  induction 1 as [c|c c' k d d' _ IH F Hid _|c c' d _ IH F _]; intros Hc.
  - exact Hc.
  - rewrite map_ident_replaceOne by exact Hid. auto.
  - rewrite map_app. cbn [map]. apply NoDup_snoc; [auto|].
    now apply findById_None_not_In.
Qed.

Hypothesis keeps_refl : forall d, keeps d d.
Hypothesis keeps_trans : forall a b c, keeps a b -> keeps b c -> keeps a c.

(** A stored document stays stored, changed only as [keeps] allows. *)
Lemma evolves_keeps (c c' : list D) :
  evolves ident keeps admits c c' ->
  forall k d, findById ident k c = Some d ->
              exists d', findById ident k c' = Some d' /\ keeps d d'.
Proof.
  induction 1 as [c|c c' k0 d0 d0' _ IH F Hid Hk|c c' d0 _ IH F _]; intros k d Fk.
  - eauto.
  - destruct (IH k d Fk) as (d1 & F1 & K1).
    destruct (N.eq_dec k k0) as [->|Hne].
    + exists d0'. rewrite findById_replaceOne_same by congruence.
      split; [reflexivity|]. assert (d1 = d0) as -> by congruence. eauto.
    + exists d1. rewrite findById_replaceOne_other by assumption. auto.
  - destruct (IH k d Fk) as (d1 & F1 & K1).
    exists d1. split; [now apply findById_app_old|assumption].
Qed.

End EvolutionFacts.

(** ** What every route keeps *)

Ltac run_routes :=
  unfold_routes; unfold_ops;
  repeat (break_match; cbn [fst snd transactions bankAccounts debts] in *;
          try congruence).

(** Names a looked-up document's key after the document. *)
Ltac name_keys :=
  repeat match goal with
    | F : findById ?ident ?k _ = Some ?d |- _ =>
        is_var k; pose proof (findById_ident ident _ _ _ F); subst k
    end.

Section MoreProperties.

Variable rt : Runtime.

Lemma bankAccountSchema_inv (e : Env) (n : option string) (b : float)
  (a : BankAccount.t) :
  bankAccountSchema e n b = Some a ->
  n = Some (BankAccount.accountNumber a) /\ BankAccount.balance a = b /\
  BankAccount._id a = newId e /\ BankAccount.accountNumber a <> EmptyString.
Proof.
  unfold bankAccountSchema. destruct n as [n|]; [|discriminate].
  destruct (String.eqb_spec n EmptyString); [discriminate|].
  intros [= <-]. cbn. auto.
Qed.

Lemma router_accounts_evolve (e : Env) (r : Route) (req : Req.body) (s : Store) :
  evolves BankAccount._id keepsAccount admitsAccount
    (bankAccounts s) (bankAccounts (fst (router rt e r req s))).
Proof.
  destruct r; cbn [router]; run_routes; name_keys;
    try apply evolves_refl;
    try (repeat (eapply evolves_replace;
                 [|eassumption|reflexivity|reflexivity]); apply evolves_refl);
    try (match goal with
         | H : negb (truthyS None) = false |- _ => cbn in H; discriminate H
         end).
  match goal with
  | I : insertOne _ _ _ = Some _ |- _ => apply insertOne_inv in I; destruct I as [I ->]
  end.
  apply evolves_insert; [apply evolves_refl|assumption|].
  match goal with
  | V : bankAccountSchema _ _ _ = Some _ |- _ =>
      apply bankAccountSchema_inv in V; destruct V as (Hn & Hb & _ & _)
  end.
  split; [exact Hb|]. intros x Hin.
  match goal with
  | F : find _ _ = None |- _ => pose proof (find_none _ _ F x Hin) as Hf
  end.
  cbn in Hf. injection Hn as ->. now apply String.eqb_neq in Hf.
Qed.


Lemma router_debts_evolve (e : Env) (r : Route) (req : Req.body) (s : Store) :
  evolves Debt._id keepsDebt admitsDebt
    (debts s) (debts (fst (router rt e r req s))).
Proof.
  destruct r; cbn [router]; run_routes; name_keys; try apply evolves_refl.
  all: try (match goal with
            | I : insertOne _ _ _ = Some _ |- _ =>
                apply insertOne_inv in I; destruct I as [I ->]
            end;
            apply evolves_insert; [apply evolves_refl|assumption|exact I]).
  all: eapply evolves_replace; [apply evolves_refl|eassumption|reflexivity|];
    unfold keepsDebt; cbn; repeat split.
Qed.

Lemma router_transactions_fresh (e : Env) (r : Route) (req : Req.body) (s : Store) :
  transactions (fst (router rt e r req s)) = transactions s \/
  exists t,
    transactions (fst (router rt e r req s)) = transactions s ++ [t] /\
    findById Transaction._id (Transaction._id t) (transactions s) = None.
Proof.
  destruct r; cbn [router]; run_routes; try (left; reflexivity).
  all: right;
    match goal with
    | I : insertOne _ ?t _ = Some _ |- _ =>
        apply insertOne_inv in I; destruct I as [I ->]; exists t; auto
    end.
Qed.


Lemma keepsAccount_trans (a b c : BankAccount.t) :
  keepsAccount a b -> keepsAccount b c -> keepsAccount a c.
Proof. unfold keepsAccount. congruence. Qed.

Lemma keepsDebt_refl (d : Debt.t) : keepsDebt d d.
Proof. unfold keepsDebt. repeat split. Qed.

Lemma keepsDebt_trans (a b c : Debt.t) :
  keepsDebt a b -> keepsDebt b c -> keepsDebt a c.
Proof.
  unfold keepsDebt. intros H1 H2.
  repeat match goal with H : _ /\ _ |- _ => destruct H end.
  repeat split; congruence.
Qed.

Lemma evolves_account_numbers_unique (c c' : list BankAccount.t) :
  evolves BankAccount._id keepsAccount admitsAccount c c' ->
  NoDup (map BankAccount.accountNumber c) -> NoDup (map BankAccount.accountNumber c').
Proof.
  induction 1 as [c|c c' k d d' _ IH F Hid Hk|c c' d _ IH F [_ Hn]]; intros Hc.
  - exact Hc.
  - rewrite (map_replaceOne_same BankAccount._id BankAccount.accountNumber k d d')
      by assumption.
    auto.
  - rewrite map_app. cbn [map]. apply NoDup_snoc; [auto|].
    intros Hin. apply in_map_iff in Hin. destruct Hin as (x & Hx & Hin).
    now apply (Hn x Hin).
Qed.

(** X7. No route deletes an account or changes its accountNumber: an account
    stored before a request is stored after it, under the same [_id] and
    with the same accountNumber. *)
Theorem accounts_are_never_deleted_or_renumbered
  (e : Env) (r : Route) (req : Req.body) (s s' : Store) (resp : Response)
  (k : ObjectId) (a : BankAccount.t) :
  router rt e r req s = (s', resp) ->
  findById BankAccount._id k (bankAccounts s) = Some a ->
  exists a',
    findById BankAccount._id k (bankAccounts s') = Some a' /\
    BankAccount.accountNumber a' = BankAccount.accountNumber a.
Proof.
  intros Hrun F.
  pose proof (router_accounts_evolve e r req s) as H. rewrite Hrun in H.
  apply (evolves_keeps BankAccount._id keepsAccount admitsAccount
           (fun d => eq_refl) keepsAccount_trans _ _ H k a F).
Qed.

(** X8. No route deletes a debt, and whatever the route, a stored debt keeps
    its description, settledAmount, type, date, parties and recurrence: a
    route changes at most its status, its totalAmount and its
    pendingAmount. *)
Theorem debts_keep_all_but_status_and_running_totals
  (e : Env) (r : Route) (req : Req.body) (s s' : Store) (resp : Response)
  (k : ObjectId) (d : Debt.t) :
  router rt e r req s = (s', resp) ->
  findById Debt._id k (debts s) = Some d ->
  exists d', findById Debt._id k (debts s') = Some d' /\ keepsDebt d d'.
Proof.
  intros Hrun F.
  pose proof (router_debts_evolve e r req s) as H. rewrite Hrun in H.
  apply (evolves_keeps Debt._id keepsDebt admitsDebt keepsDebt_refl keepsDebt_trans
           _ _ H k d F).
Qed.

(** X9. The routes keep the [_id]s of each collection pairwise distinct. *)
Theorem ids_stay_unique
  (e : Env) (r : Route) (req : Req.body) (s s' : Store) (resp : Response) :
  router rt e r req s = (s', resp) ->
  idsUnique s -> idsUnique s'.
Proof.
  intros Hrun (Ht & Ha & Hd).
  pose proof (router_transactions_fresh e r req s) as Et.
  pose proof (router_accounts_evolve e r req s) as Ea.
  pose proof (router_debts_evolve e r req s) as Ed.
  rewrite Hrun in Et, Ea, Ed. cbn [fst] in Et, Ea, Ed.
  split; [|split].
  - destruct Et as [->|(t & -> & F)]; [exact Ht|].
    rewrite map_app. cbn [map]. apply NoDup_snoc; [exact Ht|].
    now apply findById_None_not_In.
  - exact (evolves_ids_unique _ _ _ _ _ Ea Ha).
  - exact (evolves_ids_unique _ _ _ _ _ Ed Hd).
Qed.

(** X10. The routes keep the accountNumbers of the stored accounts pairwise
    distinct. *)
Theorem account_numbers_stay_unique
  (e : Env) (r : Route) (req : Req.body) (s s' : Store) (resp : Response) :
  router rt e r req s = (s', resp) ->
  accountNumbersUnique s -> accountNumbersUnique s'.
Proof.
  intros Hrun H.
  pose proof (router_accounts_evolve e r req s) as Ea. rewrite Hrun in Ea.
  exact (evolves_account_numbers_unique _ _ Ea H).
Qed.

(** X6. Stored Transactions are never changed or removed: the transactions after
    a request are those before it, in order, followed by at most one new
    one. *)
Theorem transactions_are_append_only
  (e : Env) (r : Route) (req : Req.body) (s s' : Store) (resp : Response) :
  router rt e r req s = (s', resp) ->
  exists added,
    transactions s' = transactions s ++ added /\ (List.length added <= 1)%nat.
Proof.
  intros Hrun.
  pose proof (router_transactions_fresh e r req s) as Et.
  rewrite Hrun in Et. cbn [fst] in Et.
  destruct Et as [->|(t & -> & _)].
  - exists []. rewrite app_nil_r. split; [reflexivity|cbn; lia].
  - exists [t]. split; [reflexivity|cbn; lia].
Qed.


(** X1. A request that is not answered 200 or 201 has no effect: the store after
    it is the store before it, on every route. *)
Theorem failed_request_changes_nothing
  (e : Env) (r : Route) (req : Req.body) (s s' : Store) (resp : Response) :
  router rt e r req s = (s', resp) ->
  succeeded resp = false -> s' = s.
Proof.
  intros Hrun. replace s' with (fst (router rt e r req s)) by now rewrite Hrun.
  replace resp with (snd (router rt e r req s)) by now rewrite Hrun.
  clear Hrun. destruct r; cbn [router]; run_routes;
    cbn; try reflexivity; discriminate.
Qed.

(** X2. Each route answers with one of the status codes its handler names; the
    routes that open a session answer a missing field, an unknown account or a
    failed validation all alike with 500, never with 400 or 404. *)
Theorem route_status_codes
  (e : Env) (r : Route) (req : Req.body) (s : Store) :
  In (statusCode (snd (router rt e r req s))) (statusCodes r).
Proof.
  destruct r; cbn [router statusCodes]; run_routes; cbn; auto 6.
Qed.


(** X12. An expense, income or self-transfer request leaves every debt and every
    account it does not name as they were. *)
Theorem postings_touch_only_the_named_accounts
  (e : Env) (r : Route) (req : Req.body) (s s' : Store) (resp : Response) :
  isPosting r = true ->
  router rt e r req s = (s', resp) ->
  debts s' = debts s /\
  forall j, ~ In (Some j) (namedAccounts (castObjectId rt) r req) ->
            findById BankAccount._id j (bankAccounts s')
            = findById BankAccount._id j (bankAccounts s).
Proof.
  intros Hr Hrun.
  replace s' with (fst (router rt e r req s)) by now rewrite Hrun.
  clear Hrun. destruct r; try discriminate Hr; clear Hr;
    cbn [router namedAccounts referenced]; run_routes;
    (split; [reflexivity|]); intros j Hj; try reflexivity;
    cbn [In] in Hj; name_keys;
    repeat rewrite findById_replaceOne_other; try reflexivity;
    intros ->; apply Hj; auto.
Qed.

(** ** Postings, one by one *)

Lemma castNumber_VString_inv (text : string) (x : float) :
  castNumber rt (VString text) = Cast x -> x = stringToNumber rt text.
Proof.
  cbn [castNumber]. destruct (text =? EmptyString)%string; [discriminate|].
  destruct (is_nan _); [discriminate|]. now intros [= <-].
Qed.

(** What an income that succeeds has done. *)
Lemma income_inv (e : Env) (req : Req.body) (s s' : Store) (r : Response) :
  post_transactions_income rt e req s = (s', r) ->
  statusCode r = 200%nat ->
  exists account t b,
    referenced (castObjectId rt) (Req.destinationAccount req)
    = Some (BankAccount._id account) /\
    findById BankAccount._id (BankAccount._id account) (bankAccounts s) = Some account /\
    castNumber rt (Req.amount req) = Cast (Transaction.amount t) /\
    castNumber rt (jsAdd rt (BankAccount.balance account) (Req.amount req)) = Cast b /\
    s' = {| transactions := transactions s ++ [t];
            bankAccounts :=
              replaceOne BankAccount._id (BankAccount._id account)
                {| BankAccount._id := BankAccount._id account;
                   BankAccount.accountNumber := BankAccount.accountNumber account;
                   BankAccount.balance := b |}
                (bankAccounts s);
            debts := debts s |}.
Proof.
  intros Hrun. replace s' with (fst (post_transactions_income rt e req s))
    by now rewrite Hrun.
  replace r with (snd (post_transactions_income rt e req s))
    by now rewrite Hrun.
  clear Hrun. unfold post_transactions_income. unfold_ops.
  repeat (break_match; cbn [fst snd transactions bankAccounts debts referenced] in *;
          try congruence);
    cbn [statusCode]; try discriminate; intros _.
  name_keys.
  match goal with
  | I : insertOne _ _ _ = Some _ |- _ => apply insertOne_inv in I; destruct I as [_ ->]
  end.
  match goal with
  | V : transactionSchema _ _ _ = Some _ |- _ =>
      apply transactionSchema_inv in V; cbn in V;
      destruct V as (_ & _ & _ & _ & _ & _ & _ & _ & V & _)
  end.
  eexists _, _, _. repeat split; eauto.
Qed.

(** What an expense that succeeds has done. *)
Lemma expense_inv (e : Env) (req : Req.body) (s s' : Store) (r : Response) :
  post_transactions_expense rt e req s = (s', r) ->
  statusCode r = 200%nat ->
  exists account t b,
    referenced (castObjectId rt) (Req.sourceAccount req)
    = Some (BankAccount._id account) /\
    findById BankAccount._id (BankAccount._id account) (bankAccounts s) = Some account /\
    castNumber rt (Req.amount req) = Cast (Transaction.amount t) /\
    castNumber rt (jsSub rt (BankAccount.balance account) (Req.amount req)) = Cast b /\
    s' = {| transactions := transactions s ++ [t];
            bankAccounts :=
              replaceOne BankAccount._id (BankAccount._id account)
                {| BankAccount._id := BankAccount._id account;
                   BankAccount.accountNumber := BankAccount.accountNumber account;
                   BankAccount.balance := b |}
                (bankAccounts s);
            debts := debts s |}.
Proof.
  intros Hrun. replace s' with (fst (post_transactions_expense rt e req s))
    by now rewrite Hrun.
  replace r with (snd (post_transactions_expense rt e req s))
    by now rewrite Hrun.
  clear Hrun. unfold post_transactions_expense. unfold_ops.
  repeat (break_match; cbn [fst snd transactions bankAccounts debts referenced] in *;
          try congruence);
    cbn [statusCode]; try discriminate; intros _.
  name_keys.
  match goal with
  | I : insertOne _ _ _ = Some _ |- _ => apply insertOne_inv in I; destruct I as [_ ->]
  end.
  match goal with
  | V : transactionSchema _ _ _ = Some _ |- _ =>
      apply transactionSchema_inv in V; cbn in V;
      destruct V as (_ & _ & _ & _ & _ & _ & _ & _ & V & _)
  end.
  eexists _, _, _. repeat split; eauto.
Qed.

Lemma referenced_Some (x : option string) (k : ObjectId) :
  referenced (castObjectId rt) x = Some k ->
  exists id, x = Some id /\ castObjectId rt id = Some k.
Proof. destruct x as [id|]; [|discriminate]. cbn. eauto. Qed.

(** X13. A posting whose amount is sent as a text: an expense that succeeds
    takes the number the text converts to off the balance; an income that
    succeeds stores the number that the text of the balance followed by the
    text of the amount converts to.  Either way the Transaction records the
    number the text converts to. *)
Theorem posting_with_a_text_amount_subtracts_but_concatenates
  (e : Env) (req : Req.body) (s s' : Store) (resp : Response) (text : string) :
  Req.amount req = VString text ->
  statusCode resp = 200%nat ->
  (post_transactions_expense rt e req s = (s', resp) ->
   exists id k account t,
     Req.sourceAccount req = Some id /\ castObjectId rt id = Some k /\
     findById BankAccount._id k (bankAccounts s) = Some account /\
     balanceOf k s' = Some (BankAccount.balance account - stringToNumber rt text)%float /\
     transactions s' = transactions s ++ [t] /\
     Transaction.amount t = stringToNumber rt text) /\
  (post_transactions_income rt e req s = (s', resp) ->
   exists id k account t,
     Req.destinationAccount req = Some id /\ castObjectId rt id = Some k /\
     findById BankAccount._id k (bankAccounts s) = Some account /\
     balanceOf k s'
     = Some (stringToNumber rt
               (numberToString rt (BankAccount.balance account) ++ text)%string) /\
     transactions s' = transactions s ++ [t] /\
     Transaction.amount t = stringToNumber rt text).
Proof.
  intros Ha Hok. split; intros Hrun.
  - destruct (expense_inv _ _ _ _ _ Hrun Hok)
      as (account & t & b & Hr & F & Hamt & Hb & ->).
    destruct (referenced_Some _ _ Hr) as (id & Hid & Hk).
    rewrite Ha in Hamt, Hb. apply castNumber_VString_inv in Hamt.
    cbn [jsSub toNumber] in Hb. apply castNumber_VNumber_inv in Hb.
    destruct Hb as [-> _].
    exists id, (BankAccount._id account), account, t.
    unfold balanceOf. cbn [bankAccounts transactions].
    rewrite findById_replaceOne_same by (auto; congruence).
    repeat split; auto.
  - destruct (income_inv _ _ _ _ _ Hrun Hok)
      as (account & t & b & Hr & F & Hamt & Hb & ->).
    destruct (referenced_Some _ _ Hr) as (id & Hid & Hk).
    rewrite Ha in Hamt, Hb. apply castNumber_VString_inv in Hamt.
    cbn [jsAdd] in Hb. apply castNumber_VString_inv in Hb. subst b.
    exists id, (BankAccount._id account), account, t.
    unfold balanceOf. cbn [bankAccounts transactions].
    rewrite findById_replaceOne_same by (auto; congruence).
    repeat split; auto.
Qed.

(** ** The single-document routes *)

(** X3. The four GET routes never change the store, and their answer depends on
    nothing but the path and the store: not on the body, the clock or the
    generated [_id]. *)
Theorem reads_change_nothing
  (e e' : Env) (r : Route) (req req' : Req.body) (s : Store) :
  isRead r = true ->
  fst (router rt e r req s) = s /\
  router rt e r req s = router rt e' r req' s.
Proof.
  intros Hr. destruct r; try discriminate Hr; cbn [router]; run_routes; auto.
Qed.

(** X4. On the four routes that take an [_id] in the path, a text that is no
    ObjectId is answered 500 and an ObjectId no document has is answered 404
    (the PATCH routes once their body has passed its check); the store is
    left as it was. *)
Theorem unknown_id_is_404_and_malformed_id_is_500
  (e : Env) (r : Route) (id : string) (req : Req.body) (s : Store) :
  (r = GET_bank_accounts_id id \/
   r = PATCH_bank_accounts_update_balance id /\
   truthyN (Req.newBalance req) = true /\ isNaN rt (Req.newBalance req) = false) ->
  (castObjectId rt id = None ->
   router rt e r req s = (s, InternalServerError)) /\
  (forall k, castObjectId rt id = Some k ->
             findById BankAccount._id k (bankAccounts s) = None ->
             router rt e r req s
             = (s, respond 404 (JError "Bank account not found."))).
Proof.
  intros [->|[-> [Hb Hn]]]; cbn [router]; unfold_routes; unfold_ops.
  - split; [intros ->; reflexivity|intros k -> ->; reflexivity].
  - rewrite Hb, Hn. cbn [negb orb].
    split; [intros ->; reflexivity|intros k -> ->; reflexivity].
Qed.

(** X5. On the two debt routes that take an [_id] in the path, a text that is no
    ObjectId is answered 500 and an ObjectId no debt has is answered 404
    (update-status once its body has passed its check); the store is left
    as it was. *)
Theorem unknown_debt_is_404_and_malformed_id_is_500
  (e : Env) (r : Route) (id : string) (req : Req.body) (s : Store) :
  (r = GET_debts_id id \/
   r = PATCH_debts_update_status id /\
   (Req.newStatus req = Some "pending" \/ Req.newStatus req = Some "settled")) ->
  (castObjectId rt id = None ->
   router rt e r req s = (s, InternalServerError)) /\
  (forall k, castObjectId rt id = Some k ->
             findById Debt._id k (debts s) = None ->
             router rt e r req s
             = (s, respond 404 (JError "Debt not found."))).
Proof.
  intros [->|[-> Hv]]; cbn [router]; unfold_routes; unfold_ops.
  - split; [intros ->; reflexivity|intros k -> ->; reflexivity].
  - destruct Hv as [-> | ->]; cbn;
      (split; [intros ->; reflexivity|intros k -> ->; reflexivity]).
Qed.

(** X14. Update-balance with a non-zero number on an account that exists sets
    the balance to exactly that number and answers with the updated account;
    it records no Transaction and touches no other account and no debt. *)
Theorem update_balance_sets_the_balance_without_a_transaction
  (accountId : string) (req : Req.body) (s : Store)
  (b : float) (k : ObjectId) (a : BankAccount.t) :
  Req.newBalance req = VNumber b -> truthyN (VNumber b) = true ->
  castObjectId rt accountId = Some k ->
  findById BankAccount._id k (bankAccounts s) = Some a ->
  bankAccountSchema_validate a = true ->
  let a' := {| BankAccount._id := k;
               BankAccount.accountNumber := BankAccount.accountNumber a;
               BankAccount.balance := b |} in
  exists s',
    patch_bank_accounts_update_balance rt accountId req s
    = (s', respond 200 (JBankAccount "Bank account balance updated successfully" a')) /\
    findById BankAccount._id k (bankAccounts s') = Some a' /\
    (forall j, j <> k -> findById BankAccount._id j (bankAccounts s')
                         = findById BankAccount._id j (bankAccounts s)) /\
    transactions s' = transactions s /\ debts s' = debts s.
Proof.
  intros Hb Hb0 Hk F Hv a'. pose proof (findById_ident _ _ _ _ F) as Hid.
  unfold patch_bank_accounts_update_balance. unfold_ops.
  rewrite Hb, Hb0. apply truthyN_VNumber in Hb0. destruct Hb0 as [_ Hn].
  unfold isNaN. cbn [toNumber]. rewrite Hn. cbn [negb orb]. rewrite Hk, F.
  rewrite (castNumber_VNumber rt b Hn).
  change (bankAccountSchema_validate _) with (bankAccountSchema_validate a).
  rewrite Hv, Hid. eexists. split; [reflexivity|]. cbn [bankAccounts transactions debts].
  split; [|split; [|split; reflexivity]].
  - apply findById_replaceOne_same; [reflexivity|congruence].
  - intros j Hj. now apply findById_replaceOne_other.
Qed.

(** X15. Update-balance is idempotent: sending the same request a second time
    changes nothing more and gets the same answer. *)
Theorem update_balance_is_idempotent
  (accountId : string) (req : Req.body) (s : Store) :
  patch_bank_accounts_update_balance rt accountId req
    (fst (patch_bank_accounts_update_balance rt accountId req s))
  = patch_bank_accounts_update_balance rt accountId req s.
Proof.
  unfold patch_bank_accounts_update_balance. unfold_ops.
  destruct (negb (truthyN (Req.newBalance req)) || isNaN rt (Req.newBalance req));
    [reflexivity|].
  destruct (castObjectId rt accountId) as [k|]; [|reflexivity].
  destruct (findById BankAccount._id k (bankAccounts s)) as [a|] eqn:F;
    cbn [fst bankAccounts]; [|now rewrite F].
  pose proof (findById_ident _ _ _ _ F) as Hid.
  destruct (castNumber rt (Req.newBalance req)) as [|b|];
    try (cbn [fst bankAccounts]; now rewrite F).
  destruct (bankAccountSchema_validate _) eqn:Hv;
    cbn [fst bankAccounts transactions debts]; [|now rewrite F, Hv].
  rewrite <- Hid. rewrite findById_replaceOne_same by (auto; congruence).
  cbn [BankAccount._id BankAccount.accountNumber]. rewrite Hv.
  cbn [bankAccounts transactions debts]. now rewrite replaceOne_twice.
Qed.

End MoreProperties.

(** ** The debt routes *)

Ltac break_match_in H :=
  match type of H with
  | context [match ?x with _ => _ end] =>
      match x with
      | context [match _ with _ => _ end] => fail 1
      | _ => destruct x eqn:?
      end
  end.

Section DebtProperties.

Variable rt : Runtime.

Lemma Debt_with_same (d : Debt.t) :
  Debt_with d (Debt.totalAmount d) (Debt.pendingAmount d) (Debt.status d) = d.
Proof. now destruct d. Qed.

Lemma Debt_with_twice (d : Debt.t) (t1 p1 t2 p2 : float) (v1 v2 : string) :
  Debt_with (Debt_with d t1 p1 v1) t2 p2 v2 = Debt_with d t2 p2 v2.
Proof. reflexivity. Qed.

(** X16. Update-status touches nothing but the status of the debt in its path:
    transactions and accounts stay as they are, every debt keeps its
    totalAmount and pendingAmount, and every other debt stays as it is. *)
Theorem update_status_changes_only_that_status
  (debtId : string) (req : Req.body) (s s' : Store) (r : Response) :
  patch_debts_update_status rt debtId req s = (s', r) ->
  transactions s' = transactions s /\ bankAccounts s' = bankAccounts s /\
  forall j d,
    findById Debt._id j (debts s) = Some d ->
    exists d',
      findById Debt._id j (debts s') = Some d' /\
      Debt.totalAmount d' = Debt.totalAmount d /\
      Debt.pendingAmount d' = Debt.pendingAmount d /\
      (castObjectId rt debtId <> Some j -> d' = d).
Proof.
  intros Hrun.
  replace s' with (fst (patch_debts_update_status rt debtId req s))
    by now rewrite Hrun.
  clear Hrun. unfold patch_debts_update_status. unfold_ops.
  repeat (break_match; cbn [fst snd transactions bankAccounts debts] in *;
          try congruence);
    (split; [reflexivity|split; [reflexivity|]]); intros j d F; eauto 6.
  match goal with
  | G : findById _ ?o (debts s) = Some ?t, C : castObjectId rt debtId = Some ?o |- _ =>
      pose proof (findById_ident _ _ _ _ G) as Hid; cbn [Debt_with Debt._id];
      rewrite Hid; destruct (N.eq_dec j o) as [->|Hne];
      [assert (d = t) as -> by congruence|]
  end.
  - eexists. rewrite findById_replaceOne_same by (auto; congruence).
    split; [reflexivity|]. cbn. repeat split. intros H. now elim H.
  - exists d. rewrite findById_replaceOne_other by auto. auto.
Qed.

(** X17. Update-status is idempotent. *)
Theorem update_status_is_idempotent
  (debtId : string) (req : Req.body) (s : Store) :
  patch_debts_update_status rt debtId req
    (fst (patch_debts_update_status rt debtId req s))
  = patch_debts_update_status rt debtId req s.
Proof.
  unfold patch_debts_update_status. unfold_ops.
  destruct (Req.newStatus req) as [v|]; [|reflexivity].
  destruct (negb (truthyS (Some v)) || negb (includes ["pending"; "settled"] v));
    [reflexivity|].
  destruct (castObjectId rt debtId) as [k|]; [|reflexivity].
  destruct (findById Debt._id k (debts s)) as [d|] eqn:F;
    cbn [fst debts]; [|now rewrite F].
  pose proof (findById_ident _ _ _ _ F) as Hid.
  destruct (debtSchema_validate _) eqn:Hv;
    cbn [fst bankAccounts transactions debts]; [|now rewrite F, Hv].
  cbn [Debt_with Debt._id]. rewrite <- Hid.
  rewrite findById_replaceOne_same by (auto; congruence).
  rewrite Debt_with_twice. cbn [Debt_with Debt.totalAmount Debt.pendingAmount] in *.
  rewrite Hv. cbn [bankAccounts transactions debts Debt._id].
  now rewrite replaceOne_twice.
Qed.

(** X18. Setting another status and then the original one again restores the
    store: pending -> settled -> pending, and settled -> pending -> settled. *)
Theorem update_status_there_and_back
  (debtId : string) (req back : Req.body) (s : Store)
  (k : ObjectId) (d : Debt.t) (v : string) :
  castObjectId rt debtId = Some k ->
  findById Debt._id k (debts s) = Some d ->
  debtSchema_validate d = true ->
  Req.newStatus req = Some v -> includes ["pending"; "settled"] v = true ->
  Req.newStatus back = Some (Debt.status d) ->
  fst (patch_debts_update_status rt debtId back
         (fst (patch_debts_update_status rt debtId req s)))
  = s.
Proof.
  intros Hk F Hvalid Hreq Hv Hback.
  pose proof (findById_ident _ _ _ _ F) as Hid.
  assert (Hst : includes ["pending"; "settled"] (Debt.status d) = true).
  { unfold debtSchema_validate in Hvalid.
    repeat (apply andb_true_iff in Hvalid; destruct Hvalid as [Hvalid ?]).
    assumption. }
  assert (Hsave : forall u, includes ["pending"; "settled"] u = true ->
                            debtSchema_validate
                              (Debt_with d (Debt.totalAmount d) (Debt.pendingAmount d) u)
                            = true).
  { intros u Hu. unfold debtSchema_validate in *.
    cbn [Debt_with Debt.description Debt.status Debt.type Debt.recurrence]. rewrite Hu.
    repeat (apply andb_true_iff in Hvalid; destruct Hvalid as [Hvalid ?]).
    repeat (apply andb_true_iff; split); assumption || reflexivity. }
  assert (Htruthy : forall u, includes ["pending"; "settled"] u = true ->
                              truthyS (Some u) = true).
  { intros u Hu. cbn in Hu. cbn.
    destruct (String.eqb_spec u EmptyString) as [->|]; [discriminate|reflexivity]. }
  unfold patch_debts_update_status. unfold_ops.
  rewrite Hreq, Hback, (Htruthy v Hv), Hv. cbn [negb orb].
  rewrite Hk, F, (Hsave v Hv). cbn [fst debts bankAccounts transactions].
  rewrite (Htruthy _ Hst), Hst. cbn [negb orb].
  cbn [debts]. change (Debt._id (Debt_with d _ _ v)) with (Debt._id d). rewrite Hid.
  rewrite findById_replaceOne_same by (cbn; congruence).
  rewrite Debt_with_twice.
  change (debtSchema_validate _) with
    (debtSchema_validate
       (Debt_with d (Debt.totalAmount d) (Debt.pendingAmount d) (Debt.status d))).
  rewrite (Hsave _ Hst). cbn [fst debts bankAccounts transactions].
  change (Debt.totalAmount (Debt_with d _ _ v)) with (Debt.totalAmount d).
  change (Debt.pendingAmount (Debt_with d _ _ v)) with (Debt.pendingAmount d).
  change (Debt._id (Debt_with d _ _ v)) with (Debt._id d).
  rewrite Debt_with_same, ?Hid. rewrite replaceOne_twice by (cbn; congruence).
  rewrite (replaceOne_found _ _ _ _ F). now destruct s.
Qed.


(** X19. A debt-creation request that passes the handler's check and whose
    values cast and satisfy the schema is answered 201 and stored with the
    Number casts of the three amounts as sent, a number as it is:
    [pendingAmount] and [settledAmount] are not derived from, nor compared
    with, [totalAmount]. *)
Theorem debt_is_stored_with_the_amounts_as_sent
  (e : Env) (req : Req.body) (s : Store)
  (description status type : string) (totalAmount settledAmount pendingAmount : float)
  (debtorAccount creditorAccount : option ObjectId) (recurrence : Recurrence.t) :
  Req.description req = Some description -> description <> EmptyString ->
  truthyN (Req.totalAmount req) = true ->
  castNumber rt (Req.totalAmount req) = Cast totalAmount ->
  castNumber rt (Req.settledAmount req) = Cast settledAmount ->
  castNumber rt (Req.pendingAmount req) = Cast pendingAmount ->
  Req.status req = Some status -> includes ["pending"; "settled"] status = true ->
  Req.type req = Some type -> includes ["negative"; "positive"] type = true ->
  (truthyS (Req.debtor req) || truthyS (Req.debtorAccount req))%bool = true ->
  (truthyS (Req.creditor req) || truthyS (Req.creditorAccount req))%bool = true ->
  castRef rt (Req.debtorAccount req) = Some debtorAccount ->
  castRef rt (Req.creditorAccount req) = Some creditorAccount ->
  recurrenceSchema rt (Req.recurrence req) = Some recurrence ->
  findById Debt._id (newId e) (debts s) = None ->
  let debt :=
    {| Debt._id := newId e; Debt.description := description;
       Debt.totalAmount := totalAmount; Debt.settledAmount := settledAmount;
       Debt.pendingAmount := pendingAmount; Debt.status := status;
       Debt.type := type; Debt.date := now e; Debt.debtor := Req.debtor req;
       Debt.debtorAccount := debtorAccount; Debt.creditorAccount := creditorAccount;
       Debt.creditor := Req.creditor req;
       Debt.isRecurring := orDefault (Req.isRecurring req) false;
       Debt.recurrence := recurrence |} in
  post_debts rt e req s
  = ({| transactions := transactions s; bankAccounts := bankAccounts s;
        debts := debts s ++ [debt] |},
     respond 201 (JDebt "Debt created successfully" debt)).
Proof.
  intros Hd Hd' Ht' Ht Hsa Hp Hst Hst' Hty Hty' Hdeb Hcred Hda Hca Hrec Hfresh debt.
  assert (Hs1 : status <> EmptyString) by (intros ->; discriminate Hst').
  assert (Hs2 : type <> EmptyString) by (intros ->; discriminate Hty').
  unfold post_debts. unfold_ops.
  rewrite Hd, Ht', Hst, Hty, Hdeb, Hcred.
  rewrite !truthyS_Some by assumption. cbn [negb orb].
  unfold debtSchema, requiredNumber.
  cbn [di_description di_totalAmount di_settledAmount di_pendingAmount di_status
       di_type di_debtor di_debtorAccount di_creditorAccount di_creditor
       di_isRecurring di_recurrence orDefault].
  rewrite Ht, Hsa, Hp, Hst', Hty', Hda, Hca, Hrec.
  apply String.eqb_neq in Hd'. rewrite Hd'. cbn [negb].
  rewrite insertOne_fresh by exact Hfresh. reflexivity.
Qed.

(** X20. A status or type that is not one of the schema's values passes the
    handler's check, which only asks for presence, and fails on save: the
    answer is 500, not 400, and no Debt is stored. *)
Theorem debt_with_unknown_status_or_type_fails_on_save
  (e : Env) (req : Req.body) (s : Store) (status type : string) :
  truthyS (Req.description req) = true ->
  truthyN (Req.totalAmount req) = true ->
  Req.status req = Some status -> status <> EmptyString ->
  Req.type req = Some type -> type <> EmptyString ->
  (truthyS (Req.debtor req) || truthyS (Req.debtorAccount req))%bool = true ->
  (truthyS (Req.creditor req) || truthyS (Req.creditorAccount req))%bool = true ->
  includes ["pending"; "settled"] status = false \/
  includes ["negative"; "positive"] type = false ->
  post_debts rt e req s = (s, InternalServerError).
Proof.
  intros Hd Ht Hst Hst' Hty Hty' Hdeb Hcred Hbad.
  unfold post_debts. unfold_ops.
  rewrite Hd, Ht, Hst, Hty, Hdeb, Hcred.
  rewrite !truthyS_Some by assumption. cbn [negb orb].
  unfold debtSchema.
  cbn [di_description di_totalAmount di_settledAmount di_pendingAmount di_status
       di_type orDefault].
  destruct (Req.description req); [|reflexivity].
  destruct (requiredNumber rt (Req.totalAmount req));
    [|reflexivity].
  destruct (requiredNumber rt (Req.settledAmount req));
    [|reflexivity].
  destruct (requiredNumber rt (Req.pendingAmount req));
    [|reflexivity].
  destruct (String.eqb _ EmptyString); [reflexivity|].
  destruct Hbad as [-> | ->]; cbn [negb]; [reflexivity|].
  destruct (negb _); reflexivity.
Qed.

(** X21. Debt creation answers 400 exactly when the handler's presence check
    fails; a [totalAmount] of 0 counts as missing. *)
Theorem debt_creation_answers_400_iff_a_checked_field_is_missing
  (e : Env) (req : Req.body) (s : Store) :
  statusCode (snd (post_debts rt e req s)) = 400%nat <->
  (truthyS (Req.description req) = false \/
   truthyN (Req.totalAmount req) = false \/
   truthyS (Req.status req) = false \/
   truthyS (Req.type req) = false \/
   (truthyS (Req.debtor req) = false /\ truthyS (Req.debtorAccount req) = false) \/
   (truthyS (Req.creditor req) = false /\ truthyS (Req.creditorAccount req) = false)).
Proof.
  unfold post_debts. unfold_ops.
  destruct (truthyS (Req.description req)), (truthyN (Req.totalAmount req)),
    (truthyS (Req.status req)), (truthyS (Req.type req)),
    (truthyS (Req.debtor req)), (truthyS (Req.debtorAccount req)),
    (truthyS (Req.creditor req)), (truthyS (Req.creditorAccount req));
    cbn [negb orb andb];
    try (split; [intros _; auto 10 | intros _; reflexivity]).
  all: repeat (break_match; cbn [fst snd statusCode] in *; try congruence).
  all: split; [discriminate|];
    intros H; repeat (destruct H as [H|H]; try discriminate);
    destruct H; discriminate.
Qed.


(** X22. A debt transaction is aborted, with the store as it was, when its [type]
    is not one of the Transaction types, and when the party the debt names
    ([debtor] of a positive debt, [creditor] otherwise) is absent, is no
    ObjectId or is the ObjectId of no account: a debt whose party is a plain
    name can take no transaction. *)
Theorem debt_transaction_needs_a_transaction_type_and_a_party_account
  (e : Env) (debtId : string) (req : Req.body) (s : Store)
  (k : ObjectId) (debt : Debt.t) :
  castObjectId rt debtId = Some k ->
  findById Debt._id k (debts s) = Some debt ->
  (exists type, Req.type req = Some type /\
                includes ["income"; "expense"; "self-transfer"; "debt"] type = false) \/
  lookupAccount (castObjectId rt)
    (if (Debt.type debt =? "positive")%string then Debt.debtor debt
     else Debt.creditor debt) s = None ->
  post_debts_transactions rt e debtId req s = (s, InternalServerError).
Proof.
  intros Hk F Hbad. unfold post_debts_transactions. unfold_ops.
  destruct (negb (truthyS (Req.description req)) || negb (truthyN (Req.amount req))
            || negb (truthyS (Req.type req)) || negb (truthyS (Req.sourceAccount req)));
    [reflexivity|].
  rewrite Hk, F. destruct Hbad as [(type & Hty & Hen)|Hparty].
  - unfold transactionSchema. cbn [ti_description ti_amount ti_type ti_date]. rewrite Hty.
    destruct (Req.description req); [|reflexivity].
    destruct (requiredNumber rt (Req.amount req));
      [|reflexivity].
    destruct (optionalDate rt (Req.date req) (Some (now e))); [|reflexivity].
    cbv zeta. cbn [orDefault]. rewrite Hen. cbn [negb].
    destruct (String.eqb _ EmptyString); reflexivity.
  - destruct (transactionSchema _ _ _) as [t|]; [|reflexivity].
    destruct (insertOne _ _ _) as [c|]; [|reflexivity].
    cbn [bankAccounts].
    destruct (if (Debt.type debt =? "positive")%string then Debt.debtor debt
              else Debt.creditor debt) as [text|]; [|reflexivity].
    destruct (castObjectId rt text) as [kc|]; [|reflexivity].
    now rewrite Hparty.
Qed.

(** X23. A debt transaction with its fields present, an amount and a date that
    cast, a Transaction type, an existing debt and an existing party account,
    whose new balance and totals are numbers, is answered 201 with the saved
    Transaction, which carries the debt and the [sourceAccount] of the
    request.  The [sourceAccount] only has to be an ObjectId: no account need
    have it, and an account that has it is not debited unless it is the
    party account. *)
Theorem debt_transaction_records_but_does_not_debit_the_source_account
  (e : Env) (debtId : string) (req : Req.body) (s : Store)
  (description type source party : string) (amount balance total pending : float)
  (date : option Date)
  (kd ksrc kparty : ObjectId) (debt : Debt.t) (account : BankAccount.t) :
  Req.description req = Some description -> description <> EmptyString ->
  truthyN (Req.amount req) = true ->
  castNumber rt (Req.amount req) = Cast amount ->
  optionalDate rt (Req.date req) (Some (now e)) = Some date ->
  Req.type req = Some type ->
  includes ["income"; "expense"; "self-transfer"; "debt"] type = true ->
  Req.sourceAccount req = Some source -> source <> EmptyString ->
  castObjectId rt source = Some ksrc ->
  castObjectId rt debtId = Some kd ->
  findById Debt._id kd (debts s) = Some debt ->
  debtSchema_validate debt = true ->
  (if (Debt.type debt =? "positive")%string then Debt.debtor debt
   else Debt.creditor debt) = Some party ->
  castObjectId rt party = Some kparty ->
  findById BankAccount._id kparty (bankAccounts s) = Some account ->
  bankAccountSchema_validate account = true ->
  castNumber rt
    (jsAdd rt (BankAccount.balance account)
       (if (Debt.type debt =? "positive")%string then Req.amount req
        else jsNeg rt (Req.amount req))) = Cast balance ->
  castNumber rt (jsAdd rt (Debt.totalAmount debt) (Req.amount req)) = Cast total ->
  castNumber rt (jsAdd rt (Debt.pendingAmount debt) (Req.amount req)) = Cast pending ->
  findById Transaction._id (newId e) (transactions s) = None ->
  exists s' t,
    post_debts_transactions rt e debtId req s
    = (s', respond 201 (JTransaction "Debt transaction created successfully" t)) /\
    transactions s' = transactions s ++ [t] /\
    Transaction.type t = type /\ Transaction.amount t = amount /\
    Transaction.date t = date /\
    Transaction.debt t = Some kd /\
    Transaction.sourceAccount t = Some ksrc /\
    Transaction.destinationAccount t = None /\
    (ksrc <> kparty ->
     findById BankAccount._id ksrc (bankAccounts s')
     = findById BankAccount._id ksrc (bankAccounts s)).
Proof.
  intros Hd Hd' Ha' Ha Hdate Hty Hen Hsrc Hsrc' Hksrc Hkd F Hvd Hparty Hkp Facc Hva
    Hbal Htot Hpen Hfresh.
  assert (Hty' : type <> EmptyString) by (intros ->; discriminate Hen).
  pose proof (findById_ident _ _ _ _ F) as Hidd.
  pose proof (findById_ident _ _ _ _ Facc) as Hida.
  assert (Hvd' : forall a b, debtSchema_validate
                               (Debt_with debt a b (Debt.status debt))
                             = true) by (intros a b; exact Hvd).
  unfold post_debts_transactions. unfold_ops.
  rewrite Hd, Ha', Hty, Hsrc, !truthyS_Some by assumption.
  cbn [negb orb]. rewrite Hkd, F.
  unfold transactionSchema, castRef, requiredNumber.
  cbn [ti_description ti_amount ti_type ti_sourceAccount ti_destinationAccount
       ti_debt ti_category ti_date orDefault].
  rewrite Ha, Hdate.
  apply String.eqb_neq in Hd'. rewrite Hd', Hen, Hksrc, Hkd. cbn [negb option_map].
  rewrite insertOne_fresh by exact Hfresh. cbn [bankAccounts].
  rewrite Hparty, Hkp, Facc, Hbal.
  change (bankAccountSchema_validate _) with (bankAccountSchema_validate account).
  rewrite Hva, Htot, Hpen. cbn [debts bankAccounts transactions]. rewrite Hvd'.
  eexists _, _. split; [reflexivity|].
  cbn [transactions bankAccounts Transaction.type Transaction.amount Transaction.date
       Transaction.debt Transaction.sourceAccount Transaction.destinationAccount].
  repeat split. intros Hne. rewrite Hida.
  now apply findById_replaceOne_other.
Qed.

(** X24. The Transaction schema requires a description, which the self-transfer
    handler does not ask for: a self-transfer sent without one is aborted
    with 500 and changes nothing. *)
Theorem self_transfer_without_a_description_is_aborted
  (e : Env) (req : Req.body) (s : Store) :
  truthyS (Req.description req) = false ->
  post_transactions_self_transfer rt e req s = (s, InternalServerError).
Proof.
  intros Hd. unfold post_transactions_self_transfer. unfold_ops.
  destruct (negb (truthyN (Req.amount req)) || negb (truthyS (Req.sourceAccount req))
            || negb (truthyS (Req.destinationAccount req))); [reflexivity|].
  unfold transactionSchema. cbn [ti_description ti_amount ti_date].
  destruct (Req.description req) as [d|]; [|reflexivity].
  cbn in Hd. apply negb_false_iff in Hd. rewrite Hd.
  destruct (requiredNumber rt (Req.amount req));
    [|reflexivity].
  destruct (optionalDate _ _ _); reflexivity.
Qed.


(** ** Postings in sequence *)

(** X25. An income followed by an expense of the same amount, sent as a
    number, on the same account, both answered 200, leaves every debt and
    every other account as they were and two Transactions more; the account
    itself is left at the double [(balance + amount) - amount], which need
    not be the balance it had. *)
Theorem income_then_expense_leaves_the_rounded_balance
  (e1 e2 : Env) (income expense : Req.body) (s s1 s2 : Store) (r1 r2 : Response)
  (amount : float) (k : ObjectId) :
  post_transactions_income rt e1 income s = (s1, r1) ->
  statusCode r1 = 200%nat ->
  post_transactions_expense rt e2 expense s1 = (s2, r2) ->
  statusCode r2 = 200%nat ->
  Req.amount income = VNumber amount ->
  Req.amount expense = VNumber amount ->
  referenced (castObjectId rt) (Req.destinationAccount income) = Some k ->
  referenced (castObjectId rt) (Req.sourceAccount expense) = Some k ->
  debts s2 = debts s /\
  (exists t1 t2, transactions s2 = transactions s ++ [t1; t2]) /\
  (forall j, j <> k ->
             findById BankAccount._id j (bankAccounts s2)
             = findById BankAccount._id j (bankAccounts s)) /\
  exists account,
    findById BankAccount._id k (bankAccounts s) = Some account /\
    findById BankAccount._id k (bankAccounts s2)
    = Some {| BankAccount._id := k;
              BankAccount.accountNumber := BankAccount.accountNumber account;
              BankAccount.balance :=
                (BankAccount.balance account + amount - amount)%float |}.
Proof.
  intros H1 Hok1 H2 Hok2 Ha1 Ha2 Hk1 Hk2.
  destruct (income_inv _ _ _ _ _ _ H1 Hok1) as (acc1 & t1 & b1 & Hr1 & F1 & _ & Hb1 & ->).
  destruct (expense_inv _ _ _ _ _ _ H2 Hok2) as (acc2 & t2 & b2 & Hr2 & F2 & _ & Hb2 & ->).
  cbn [bankAccounts debts transactions] in *.
  assert (Hid1 : BankAccount._id acc1 = k) by congruence.
  assert (Hid2 : BankAccount._id acc2 = k) by congruence.
  rewrite Hid1, Hid2 in *.
  rewrite findById_replaceOne_same in F2 by (auto; congruence).
  injection F2 as <-. cbn [BankAccount._id BankAccount.accountNumber BankAccount.balance] in *.
  rewrite Ha1 in Hb1. rewrite Ha2 in Hb2. cbn [jsAdd jsSub toNumber] in Hb1, Hb2.
  apply castNumber_VNumber_inv in Hb1. destruct Hb1 as [-> _].
  apply castNumber_VNumber_inv in Hb2. destruct Hb2 as [-> _].
  split; [reflexivity|]. split; [exists t1, t2; now rewrite <- app_assoc|]. split.
  - intros j Hj. now rewrite !findById_replaceOne_other by auto.
  - exists acc1. split; [exact F1|].
    apply findById_replaceOne_same; [reflexivity|].
    rewrite findById_replaceOne_same by (auto; congruence). discriminate.
Qed.

(** ** Creating and reading back *)

Lemma find_app_last {A : Type} (f : A -> bool) (l : list A) (x : A) :
  f x = true -> find f (l ++ [x]) <> None.
Proof.
  intros Hx H. pose proof (find_none _ _ H x) as Hf.
  rewrite Hx in Hf. discriminate Hf. apply in_or_app. right. now left.
Qed.

(** X26. Once an account has been created, a second creation request with the
    same accountNumber is answered 400 and changes nothing, whatever [_id]
    the driver generates for it. *)
Theorem account_cannot_be_created_twice
  (e e' : Env) (req : Req.body) (s s' : Store) (r : Response) :
  post_bank_accounts e req s = (s', r) ->
  statusCode r = 201%nat ->
  post_bank_accounts e' req s'
  = (s', respond 400 (JError "Account with the same account number already exists.")).
Proof.
  unfold post_bank_accounts. unfold_ops.
  destruct (negb (truthyS (Req.accountNumber req))); [intros [= <- <-]; discriminate|].
  destruct (find _ (bankAccounts s)); [intros [= <- <-]; discriminate|].
  destruct (bankAccountSchema e (Req.accountNumber req) 0%float) as [a|] eqn:V;
    [|intros [= <- <-]; discriminate].
  destruct (insertOne BankAccount._id a (bankAccounts s)) as [c|] eqn:I;
    [|intros [= <- <-]; discriminate].
  intros [= <- <-] _. cbn [bankAccounts].
  apply insertOne_inv in I. destruct I as [_ ->].
  apply bankAccountSchema_inv in V. destruct V as (Hn & _).
  destruct (find _ (bankAccounts s ++ [a])) eqn:Ffind; [reflexivity|].
  exfalso. revert Ffind. apply find_app_last. rewrite Hn. apply String.eqb_refl.
Qed.

(** X27. A created account can be fetched at once under its [_id], and a created
    debt likewise: the GET answers 200 with the document the creation
    answered with. *)
Theorem created_documents_can_be_fetched
  (e : Env) (req : Req.body) (s s' : Store) (r : Response) (id : string) :
  castObjectId rt id = Some (newId e) ->
  (post_bank_accounts e req s = (s', r) -> statusCode r = 201%nat ->
   exists a,
     json r = JBankAccount "Bank account created successfully" a /\
     get_bank_accounts_id rt id s' = (s', respond 200 (JOneBankAccount a))) /\
  (post_debts rt e req s = (s', r) -> statusCode r = 201%nat ->
   exists d,
     json r = JDebt "Debt created successfully" d /\
     get_debts_id rt id s' = (s', respond 200 (JOneDebt d))).
Proof.
  intros Hid. split.
  - unfold post_bank_accounts, get_bank_accounts_id. unfold_ops.
    destruct (negb (truthyS (Req.accountNumber req))); [intros [= <- <-]; discriminate|].
    destruct (find _ (bankAccounts s)); [intros [= <- <-]; discriminate|].
    destruct (bankAccountSchema e (Req.accountNumber req) 0%float) as [a|] eqn:V;
      [|intros [= <- <-]; discriminate].
    destruct (insertOne BankAccount._id a (bankAccounts s)) as [c|] eqn:I;
      [|intros [= <- <-]; discriminate].
    intros [= <- <-] _. exists a. split; [reflexivity|]. rewrite Hid. cbn [bankAccounts].
    apply insertOne_inv in I. destruct I as [Hnone ->].
    apply bankAccountSchema_inv in V. destruct V as (_ & _ & Hk & _). rewrite <- Hk.
    assert (F : findById BankAccount._id (BankAccount._id a) (bankAccounts s ++ [a])
                = Some a).
    { clear - Hnone. induction (bankAccounts s) as [|x l IH]; cbn [app].
      - rewrite findById_cons, N.eqb_refl. reflexivity.
      - rewrite findById_cons in *. destruct (N.eqb _ _); [discriminate|auto]. }
    now rewrite F.
  - unfold post_debts, get_debts_id. unfold_ops.
    destruct (negb _ || _ || _ || _ || _ || _); [intros [= <- <-]; discriminate|].
    destruct (debtSchema _ _ _) as [d|] eqn:V; [|intros [= <- <-]; discriminate].
    destruct (insertOne Debt._id d (debts s)) as [c|] eqn:I;
      [|intros [= <- <-]; discriminate].
    intros [= <- <-] _. exists d. split; [reflexivity|]. rewrite Hid. cbn [debts].
    apply insertOne_inv in I. destruct I as [Hnone ->].
    assert (Hk : Debt._id d = newId e).
    { unfold debtSchema in V.
      repeat (break_match_in V; try discriminate V). injection V as <-. reflexivity. }
    rewrite <- Hk.
    assert (F : findById Debt._id (Debt._id d) (debts s ++ [d]) = Some d).
    { clear - Hnone. induction (debts s) as [|x l IH]; cbn [app].
      - rewrite findById_cons, N.eqb_refl. reflexivity.
      - rewrite findById_cons in *. destruct (N.eqb _ _); [discriminate|auto]. }
    now rewrite F.
Qed.

End DebtProperties.

(** ** The further properties on sample requests *)

Lemma failed_request_changes_nothing_witness :
  succeeded (snd failedRun) = false /\ fst failedRun = store0.
Proof.
  split; [reflexivity|].
  apply (failed_request_changes_nothing sampleRuntime env0 POST_transactions_expense
           (spend 40%float idMissing) store0 (fst failedRun) (snd failedRun) eq_refl eq_refl).
Defined.

Lemma reads_change_nothing_witness :
  isRead (GET_bank_accounts_id idA) = true /\
  fst (router sampleRuntime env0 (GET_bank_accounts_id idA) Req.empty store0) = store0.
Proof.
  split; [reflexivity|].
  apply (proj1 (reads_change_nothing sampleRuntime env0 env1 (GET_bank_accounts_id idA)
                  Req.empty (spend 40%float idA) store0 eq_refl)).
Defined.

Lemma unknown_id_is_404_and_malformed_id_is_500_witness :
  findById BankAccount._id (keyOf idMissing) (bankAccounts store0) = None /\
  router sampleRuntime env0 (GET_bank_accounts_id idMissing) Req.empty store0
  = (store0, respond 404 (JError "Bank account not found.")).
Proof.
  split; [reflexivity|].
  apply (proj2 (unknown_id_is_404_and_malformed_id_is_500 sampleRuntime env0
                  (GET_bank_accounts_id idMissing) idMissing Req.empty store0
                  (or_introl eq_refl)) (keyOf idMissing)); reflexivity.
Defined.

Lemma unknown_debt_is_404_and_malformed_id_is_500_witness :
  hexObjectId "not-an-object-id" = None /\
  router sampleRuntime env0 (PATCH_debts_update_status "not-an-object-id")
    (setStatus "settled") store0
  = (store0, InternalServerError).
Proof.
  split; [reflexivity|].
  apply (proj1 (unknown_debt_is_404_and_malformed_id_is_500 sampleRuntime env0
                  (PATCH_debts_update_status "not-an-object-id") "not-an-object-id"
                  (setStatus "settled") store0
                  (or_intror (conj eq_refl (or_intror eq_refl))))).
  reflexivity.
Defined.

Lemma transactions_are_append_only_witness :
  exists added,
    transactions (fst expenseRun) = transactions store0 ++ added /\
    (List.length added <= 1)%nat.
Proof.
  apply (transactions_are_append_only sampleRuntime env0 POST_transactions_expense
           (spend 40%float idA) store0 (fst expenseRun) (snd expenseRun) eq_refl).
Defined.

Lemma accounts_are_never_deleted_or_renumbered_witness :
  findById BankAccount._id (keyOf idA) (bankAccounts store0) = Some accountA /\
  exists a',
    findById BankAccount._id (keyOf idA) (bankAccounts (fst expenseRun)) = Some a' /\
    BankAccount.accountNumber a' = BankAccount.accountNumber accountA.
Proof.
  split; [reflexivity|].
  apply (accounts_are_never_deleted_or_renumbered sampleRuntime env0
           POST_transactions_expense (spend 40%float idA) store0 (fst expenseRun)
           (snd expenseRun) (keyOf idA) accountA eq_refl eq_refl).
Defined.

Lemma debts_keep_all_but_status_and_running_totals_witness :
  findById Debt._id (keyOf idDebtP) (debts store0) = Some debtP /\
  exists d',
    findById Debt._id (keyOf idDebtP) (debts (fst debtRun)) = Some d' /\
    keepsDebt debtP d'.
Proof.
  split; [reflexivity|].
  apply (debts_keep_all_but_status_and_running_totals sampleRuntime env0
           (POST_debts_transactions idDebtP) (repay 30%float) store0 (fst debtRun)
           (snd debtRun) (keyOf idDebtP) debtP eq_refl eq_refl).
Defined.

Lemma store0_idsUnique : idsUnique store0.
Proof.
  unfold idsUnique. vm_compute.
  repeat split; repeat (constructor; [cbn; intuition discriminate|]); constructor.
Qed.

Lemma ids_stay_unique_witness :
  idsUnique store0 /\ idsUnique (fst debtRun).
Proof.
  split; [exact store0_idsUnique|].
  apply (ids_stay_unique sampleRuntime env0 (POST_debts_transactions idDebtP) (repay 30%float)
           store0 (fst debtRun) (snd debtRun) eq_refl store0_idsUnique).
Defined.

Lemma store0_accountNumbersUnique : accountNumbersUnique store0.
Proof.
  unfold accountNumbersUnique. cbn.
  repeat (constructor; [cbn; intuition discriminate|]); constructor.
Qed.

Lemma account_numbers_stay_unique_witness :
  accountNumbersUnique store0 /\
  accountNumbersUnique
    (fst (router sampleRuntime env0 POST_bank_accounts (openAccount "A003") store0)).
Proof.
  split; [exact store0_accountNumbersUnique|].
  apply (account_numbers_stay_unique sampleRuntime env0 POST_bank_accounts
           (openAccount "A003") store0 _
           (snd (router sampleRuntime env0 POST_bank_accounts (openAccount "A003") store0))
           eq_refl store0_accountNumbersUnique).
Defined.

Lemma router_storeValid_witness :
  storeValid store0 = true /\ storeValid (fst debtRun) = true.
Proof.
  split; [reflexivity|].
  apply (router_storeValid sampleRuntime env0 (POST_debts_transactions idDebtP) (repay 30%float)
           store0 eq_refl).
Defined.

Lemma postings_touch_only_the_named_accounts_witness :
  isPosting POST_transactions_expense = true /\
  debts (fst expenseRun) = debts store0 /\
  findById BankAccount._id (keyOf idB) (bankAccounts (fst expenseRun))
  = findById BankAccount._id (keyOf idB) (bankAccounts store0).
Proof.
  split; [reflexivity|].
  destruct (postings_touch_only_the_named_accounts sampleRuntime env0
              POST_transactions_expense (spend 40%float idA) store0 (fst expenseRun)
              (snd expenseRun) eq_refl eq_refl) as [Hd Ha].
  split; [exact Hd|]. apply Ha. cbn. intros [H|[]]. discriminate H.
Defined.

Lemma posting_with_a_text_amount_subtracts_but_concatenates_witness :
  Req.amount (earnText "30" idA) = VString "30" /\
  statusCode (snd (post_transactions_income sampleRuntime env0 (earnText "30" idA) store0))
  = 200%nat /\
  balanceOf (keyOf idA) store0 = Some 100%float /\
  exists id k account,
    Req.destinationAccount (earnText "30" idA) = Some id /\
    hexObjectId id = Some k /\
    findById BankAccount._id k (bankAccounts store0) = Some account /\
    balanceOf k
      (fst (post_transactions_income sampleRuntime env0 (earnText "30" idA) store0))
    = Some (decimalToNumber (integerToString (BankAccount.balance account) ++ "30")%string).
Proof.
  split; [reflexivity|]. split; [reflexivity|]. split; [reflexivity|].
  destruct (proj2 (posting_with_a_text_amount_subtracts_but_concatenates sampleRuntime
                     env0 (earnText "30" idA) store0
                     (fst (post_transactions_income sampleRuntime env0
                             (earnText "30" idA) store0))
                     (snd (post_transactions_income sampleRuntime env0
                             (earnText "30" idA) store0))
                     "30" eq_refl eq_refl) eq_refl)
    as (id & k & account & t & H1 & H2 & H3 & H4 & _).
  exists id, k, account. repeat split; assumption.
Defined.

Lemma update_balance_sets_the_balance_without_a_transaction_witness :
  findById BankAccount._id (keyOf idA) (bankAccounts store0) = Some accountA /\
  exists s',
    fst (patch_bank_accounts_update_balance sampleRuntime idA (setBalance (VNumber 250%float)) store0) = s' /\
    balanceOf (keyOf idA) s' = Some 250%float /\
    transactions s' = transactions store0.
Proof.
  split; [reflexivity|].
  destruct (update_balance_sets_the_balance_without_a_transaction sampleRuntime idA
              (setBalance (VNumber 250%float)) store0 250%float (keyOf idA) accountA)
    as (s' & Hrun & Hfind & _ & Htx & _); try reflexivity; try discriminate.
  exists s'. split; [now rewrite Hrun|]. split; [|exact Htx].
  unfold balanceOf. now rewrite Hfind.
Defined.

Lemma update_status_changes_only_that_status_witness :
  statusCode (snd (patch_debts_update_status sampleRuntime idDebtP (setStatus "settled")
                     store0)) = 200%nat /\
  bankAccounts (fst (patch_debts_update_status sampleRuntime idDebtP (setStatus "settled")
                       store0)) = bankAccounts store0.
Proof.
  split; [reflexivity|].
  apply (proj1 (proj2 (update_status_changes_only_that_status sampleRuntime idDebtP
                         (setStatus "settled") store0 _
                         (snd (patch_debts_update_status sampleRuntime idDebtP
                                 (setStatus "settled") store0)) eq_refl))).
Defined.

Lemma update_status_there_and_back_witness :
  Debt.status debtP = "pending" /\
  fst (patch_debts_update_status sampleRuntime idDebtP (setStatus "pending")
         (fst (patch_debts_update_status sampleRuntime idDebtP (setStatus "settled")
                 store0)))
  = store0.
Proof.
  split; [reflexivity|].
  apply (update_status_there_and_back sampleRuntime idDebtP (setStatus "settled")
           (setStatus "pending") store0 (keyOf idDebtP) debtP "settled");
    reflexivity.
Defined.

Lemma debt_is_stored_with_the_amounts_as_sent_witness :
  Req.pendingAmount lendFull = VNumber 70%float /\
  exists d,
    debts (fst (post_debts sampleRuntime env0 lendFull store0)) = debts store0 ++ [d] /\
    Debt.totalAmount d = 50%float /\ Debt.settledAmount d = 10%float /\
    Debt.pendingAmount d = 70%float.
Proof.
  split; [reflexivity|].
  eexists.
  rewrite (debt_is_stored_with_the_amounts_as_sent sampleRuntime env0 lendFull store0
             "loan to a friend" "pending" "positive" 50%float 10%float 70%float None None
             noRecurrence);
    try reflexivity; try discriminate.
  cbn. repeat split.
Defined.

Lemma debt_with_unknown_status_or_type_fails_on_save_witness :
  Req.status lendOpen = Some "open" /\
  post_debts sampleRuntime env0 lendOpen store0 = (store0, InternalServerError).
Proof.
  split; [reflexivity|].
  apply (debt_with_unknown_status_or_type_fails_on_save sampleRuntime env0 lendOpen store0
           "open" "positive"); try reflexivity; try discriminate.
  left. reflexivity.
Defined.

Lemma debt_transaction_needs_a_transaction_type_and_a_party_account_witness :
  lookupAccount hexObjectId (Debt.debtor debtN) store0 = None /\
  post_debts_transactions sampleRuntime env0 idDebtN (ofType "positive" (repay 30%float)) store0
  = (store0, InternalServerError).
Proof.
  split; [reflexivity|].
  apply (debt_transaction_needs_a_transaction_type_and_a_party_account sampleRuntime env0
           idDebtN (ofType "positive" (repay 30%float)) store0 (keyOf idDebtN) debtN
           eq_refl eq_refl).
  left. exists "positive". split; reflexivity.
Defined.

Lemma debt_transaction_records_but_does_not_debit_the_source_account_witness :
  findById BankAccount._id (keyOf idMissing) (bankAccounts store0) = None /\
  exists s' t,
    post_debts_transactions sampleRuntime env0 idDebtP
      (ofType "debt" (from idMissing (withAmount (VNumber 30%float) "repayment"))) store0
    = (s', respond 201 (JTransaction "Debt transaction created successfully" t)) /\
    Transaction.sourceAccount t = Some (keyOf idMissing).
Proof.
  split; [reflexivity|].
  destruct (debt_transaction_records_but_does_not_debit_the_source_account sampleRuntime
              env0 idDebtP (ofType "debt" (from idMissing (withAmount (VNumber 30%float) "repayment")))
              store0 "repayment" "debt" idMissing idA 30%float 130%float 80%float 80%float
              (Some (now env0))
              (keyOf idDebtP) (keyOf idMissing) (keyOf idA) debtP accountA)
    as (s' & t & Hrun & _ & _ & _ & _ & _ & Hsrc & _); try reflexivity; try discriminate.
  exists s', t. split; assumption.
Defined.

Lemma self_transfer_without_a_description_is_aborted_witness :
  truthyS (Req.description (to idB (from idA (Req.empty_with_amount (VNumber 20%float))))) = false /\
  post_transactions_self_transfer sampleRuntime env0
    (to idB (from idA (Req.empty_with_amount (VNumber 20%float)))) store0
  = (store0, InternalServerError).
Proof.
  split; [reflexivity|].
  apply (self_transfer_without_a_description_is_aborted sampleRuntime env0
           (to idB (from idA (Req.empty_with_amount (VNumber 20%float)))) store0 eq_refl).
Defined.

Lemma income_then_expense_leaves_the_rounded_balance_witness :
  statusCode (snd (post_transactions_income sampleRuntime env0 (earn 40%float idA) store0))
  = 200%nat /\
  exists account,
    findById BankAccount._id (keyOf idA) (bankAccounts store0) = Some account /\
    findById BankAccount._id (keyOf idA)
      (bankAccounts
         (fst (post_transactions_expense sampleRuntime env1 (spend 40%float idA)
                 (fst (post_transactions_income sampleRuntime env0 (earn 40%float idA)
                         store0)))))
    = Some {| BankAccount._id := keyOf idA;
              BankAccount.accountNumber := BankAccount.accountNumber account;
              BankAccount.balance := (BankAccount.balance account + 40 - 40)%float |}.
Proof.
  split; [reflexivity|].
  apply (income_then_expense_leaves_the_rounded_balance sampleRuntime env0 env1
           (earn 40%float idA) (spend 40%float idA) store0
           (fst (post_transactions_income sampleRuntime env0 (earn 40%float idA) store0))
           (fst (post_transactions_expense sampleRuntime env1 (spend 40%float idA)
                   (fst (post_transactions_income sampleRuntime env0
                           (earn 40%float idA) store0))))
           (snd (post_transactions_income sampleRuntime env0 (earn 40%float idA) store0))
           (snd (post_transactions_expense sampleRuntime env1 (spend 40%float idA)
                   (fst (post_transactions_income sampleRuntime env0
                           (earn 40%float idA) store0))))
           40%float (keyOf idA)
           eq_refl eq_refl eq_refl eq_refl eq_refl eq_refl eq_refl eq_refl).
Defined.

(** The balance after an income and an expense of the same amount need not be
    the balance before them: 1 in and 1 out leave 2^53 - 1 where 2^53 was. *)
Example income_then_expense_need_not_restore_the_balance :
  let s1 := fst (post_transactions_income sampleRuntime env0 (earn 1%float idB)
                   storeAt2To53) in
  let s2 := fst (post_transactions_expense sampleRuntime env1 (spend 1%float idB) s1) in
  option_map exactInteger (balanceOf (keyOf idB) storeAt2To53)
  = Some (Some 9007199254740992) /\
  option_map exactInteger (balanceOf (keyOf idB) s2) = Some (Some 9007199254740991).
Proof. vm_compute. split; reflexivity. Qed.

Lemma account_cannot_be_created_twice_witness :
  statusCode (snd (post_bank_accounts env0 (openAccount "A003") store0)) = 201%nat /\
  statusCode
    (snd (post_bank_accounts env1 (openAccount "A003")
            (fst (post_bank_accounts env0 (openAccount "A003") store0))))
  = 400%nat.
Proof.
  split; [reflexivity|].
  rewrite (account_cannot_be_created_twice env0 env1 (openAccount "A003") store0
             (fst (post_bank_accounts env0 (openAccount "A003") store0))
             (snd (post_bank_accounts env0 (openAccount "A003") store0))
             eq_refl eq_refl).
  reflexivity.
Defined.

Lemma created_documents_can_be_fetched_witness :
  hexObjectId idNew = Some (newId env0) /\
  exists a,
    get_bank_accounts_id sampleRuntime idNew
      (fst (post_bank_accounts env0 (openAccount "A003") store0))
    = (fst (post_bank_accounts env0 (openAccount "A003") store0),
       respond 200 (JOneBankAccount a)).
Proof.
  split; [reflexivity|].
  destruct (created_documents_can_be_fetched sampleRuntime env0 (openAccount "A003") store0
              (fst (post_bank_accounts env0 (openAccount "A003") store0))
              (snd (post_bank_accounts env0 (openAccount "A003") store0))
              idNew eq_refl) as [H _].
  destruct (H eq_refl eq_refl) as (a & _ & Hget).
  exists a. exact Hget.
Defined.
